(** * GigaSpeech ASR data module (egs/gigaspeech/context_ASR/zipformer/asr_datamodule.py)

    A shallow embedding of [_SeedWorkers] and [GigaSpeechAsrDataModule].
    The module is a factory: it reads an argparse namespace and calls
    constructors of Lhotse and PyTorch.  Those constructors are external,
    so an object built by them is modelled by the record of the arguments
    the module passes, an argument left out at the call site being [None].
    Python integers are [Z], dictionaries are [gmap], the process state
    (the identities handed to new objects and the three [lru_cache] tables)
    is threaded explicitly. *)

From Stdlib Require Import ZArith.
From stdpp Require Import gmap strings list pretty.

Local Open Scope Z_scope.
Local Open Scope string_scope.
Local Open Scope list_scope.
Local Open Scope stdpp_scope.

(** ** Python values and exceptions *)

(** The values a parameter default or a state-dict entry can take here.
    [PyEmpty] is [inspect.Parameter.empty], the marker of a parameter that
    has no default. *)
Inductive PyVal :=
| PyInt (z : Z)
| PyBool (b : bool)
| PyStr (s : string)
| PyNone
| PyEmpty.

(** [v == n] for an integer literal [n], with Python's rules: [bool] is a
    subclass of [int] ([True == 1], [False == 0]); a string, [None] or the
    [empty] marker is never equal to an integer. *)
Definition py_eq_int (v : PyVal) (n : Z) : bool :=
  match v with
  | PyInt z => Z.eqb z n
  | PyBool b => Z.eqb (if b then 1 else 0) n
  | PyStr _ | PyNone | PyEmpty => false
  end.

(** [pathlib.Path] as its sequence of parts; [d / name] appends one part. *)
Definition Path := list string.

Definition path_div (d : Path) (name : string) : Path := d ++ [name].

(** The exceptions that come out of the module: a key missing in a
    mapping, a manifest file that does not exist, a manifest file that is
    not gzip data, and an attribute looked up on [None]. *)
Inductive Exn :=
| KeyError (key : string)
| FileNotFoundError (path : Path)
| BadGzipFile
| AttributeError (attribute : string).

Inductive outcome (A : Type) :=
| Returned (a : A)
| Raised (e : Exn).
Arguments Returned {A} a.
Arguments Raised {A} e.

#[global] Instance outcome_ret : MRet outcome := fun A a => Returned a.
#[global] Instance outcome_bind : MBind outcome := fun A B f m =>
  match m with
  | Returned a => f a
  | Raised e => Raised e
  end.

(** [d[k]] on a dictionary: the value, or [KeyError]. *)
Definition getitem {V : Type} (d : gmap string V) (k : string) : outcome V :=
  match d !! k with
  | Some v => Returned v
  | None => Raised (KeyError k)
  end.

(** ** Lhotse objects *)

(** A cut is opaque to the module; only its identity is kept. *)
Record Cut := { cut_id : string }.

(** The cut sets the module builds.  Each carries [oid], the identity of
    the Python object (two objects are the same instance when their [oid]s
    agree): [load_manifest_lazy(path)] with the cuts the file holds,
    [source.subset(first=n)], and the multiplexer [CutSet.mux] of several
    streams with their weights.  A stream handed to the multiplexer is
    whatever [load_manifest_lazy] returned, which is [None] for a manifest
    without cuts. *)
#[warnings="-register-all"] Inductive CutSet :=
| LazyManifest (oid : nat) (path : Path) (items : list Cut)
| SubsetFirst (oid : nat) (first : nat) (source : CutSet)
| LazyMux (oid : nat) (streams : list (option CutSet)) (weights : list Z).

Definition id_of (cs : CutSet) : nat :=
  match cs with
  | LazyManifest oid _ _ | SubsetFirst oid _ _ | LazyMux oid _ _ => oid
  end.

(** The cuts of a set in iteration order, for the sets whose order is fixed
    (a multiplexer draws its next stream at random). *)
Fixpoint cut_list (cs : CutSet) : option (list Cut) :=
  match cs with
  | LazyManifest _ _ xs => Some xs
  | SubsetFirst _ n source => take n <$> cut_list source
  | LazyMux _ _ _ => None
  end.

(** [inspect.signature(f).parameters]: parameter name to parameter. *)
Record Param := { default : PyVal }.

Abbreviation Signature := (gmap string Param).

(** What the module reads from the installed Lhotse: the signature of
    [DiscretizedInputAugment.__init__]. *)
Record Lhotse := { DiscretizedInputAugment_init : Signature }.

Record DiscretizedInputAugment := {
  aug_token_type : string;
  aug_time_warp_factor : Z;
  aug_num_frame_masks : Z;
  aug_tokens_mask_size : Z;
  aug_num_token_masks : Z;
  aug_frames_mask_size : Z
}.

(** [frequency_size] and [input_transforms] are [None] where the call
    leaves the keyword out. *)
Record DiscretizedInputSpeechRecognitionDataset := {
  ds_field : string;
  ds_num_tokens : Z;
  ds_frequency_size : option Z;
  ds_token_type : string;
  ds_input_transforms : option (list DiscretizedInputAugment)
}.

Abbreviation StateDict := (gmap string PyVal).

(** The two sampler constructors, with the keywords passed to them. *)
Inductive SamplerCtor :=
| DynamicBucketingSampler (cuts : CutSet) (max_duration : Z) (shuffle : bool)
    (num_buckets : option Z) (drop_last : option bool)
| SimpleCutSampler (cuts : CutSet) (max_duration : Z) (shuffle : bool).

(** A sampler object: how it was constructed, and the state dict given to
    its [load_state_dict], if that was called.  The record keeps the calls
    the module makes; whether Lhotse accepts their arguments (a positive
    max duration, enough cuts for the buckets, the keys of a state dict)
    is checked inside Lhotse and is not part of it. *)
Record CutSampler := {
  sampler_ctor : SamplerCtor;
  sampler_loaded : option StateDict
}.

Definition new_sampler (c : SamplerCtor) : CutSampler :=
  {| sampler_ctor := c; sampler_loaded := None |}.

Definition load_state_dict (sd : StateDict) (s : CutSampler) : CutSampler :=
  {| sampler_ctor := sampler_ctor s; sampler_loaded := Some sd |}.

(** ** Worker seeding *)

(** A random generator: the seed it was last given and the number of draws
    made since. *)
Record Rng := { rng_seed : Z; rng_draws : nat }.

(** [lhotse.utils.fix_random_seed]: reseeds the generators of the process. *)
Definition fix_random_seed (random_seed : Z) (_ : Rng) : Rng :=
  {| rng_seed := random_seed; rng_draws := 0 |}.

Record _SeedWorkers := { seed : Z }.

Definition _SeedWorkers_call (self : _SeedWorkers) (worker_id : Z) : Rng -> Rng :=
  fix_random_seed (seed self + worker_id).

(** ** torch.utils.data.DataLoader *)

(** [dl_batch_size] is the value passed ([None] is Python's [None]);
    [dl_persistent_workers] and [dl_worker_init_fn] are [None] where the
    call leaves the keyword out.  As for the samplers, the record is the
    call; the checks PyTorch makes on the arguments are not part of it. *)
Record DataLoader := {
  dl_dataset : DiscretizedInputSpeechRecognitionDataset;
  dl_sampler : CutSampler;
  dl_batch_size : option Z;
  dl_num_workers : Z;
  dl_persistent_workers : option bool;
  dl_worker_init_fn : option _SeedWorkers
}.

(** ** The argparse namespace *)

Record Namespace := {
  manifest_dir : Path;
  max_duration : Z;
  bucketing_sampler : bool;
  num_buckets : Z;
  shuffle : bool;
  drop_last : bool;
  return_cuts : bool;
  num_workers : Z;
  enable_spec_aug : bool;
  spec_aug_time_warp_factor : Z;
  enable_gaussian_noise : bool;
  input_strategy : string;
  subset : string;
  small_dev : bool
}.

(** The defaults declared by [add_arguments]. *)
Definition default_args : Namespace := {|
  manifest_dir := ["data"; "fbank"];
  max_duration := 1000;
  bucketing_sampler := true;
  num_buckets := 30;
  shuffle := true;
  drop_last := true;
  return_cuts := true;
  num_workers := 2;
  enable_spec_aug := true;
  spec_aug_time_warp_factor := 80;
  enable_gaussian_noise := true;
  input_strategy := "AudioSamples";
  subset := "M";
  small_dev := false
|}.

(** ** The process: object identities and the lru_cache tables *)

(** A file where a manifest is expected: gzip-compressed JSON lines, one
    cut per line (possibly none), or bytes that are not gzip data. *)
Inductive File :=
| Manifest (cuts : list Cut)
| NotGzip.

(** The files on disk; [None] where no file exists at the path. *)
Definition FileSystem := Path -> option File.

(** One table of [functools.lru_cache]: (key, result) pairs, the most
    recently used first.  The key of a call [f(self)] is the instance
    [self], hashed and compared by identity; the result may be [None]
    (Python's [None] is cached like any other value). *)
Abbreviation LruCache := (list (nat * option CutSet)).

(** [lru_cache()] is [lru_cache(maxsize=128)]. *)
Definition maxsize : nat := 128.

Fixpoint lru_lookup (key : nat) (cache : LruCache) : option (option CutSet) :=
  match cache with
  | [] => None
  | (k, result) :: cache' =>
      if decide (k = key) then Some result else lru_lookup key cache'
  end.

Definition lru_remove (key : nat) (cache : LruCache) : LruCache :=
  filter (fun e => e.1 <> key) cache.

(** A hit moves the entry to the most-recently-used end. *)
Definition lru_touch (key : nat) (result : option CutSet) (cache : LruCache)
    : LruCache :=
  (key, result) :: lru_remove key cache.

(** Storing the result of a miss: nothing if the key got in meanwhile;
    when the table is full the least recently used entry is dropped. *)
Definition lru_store (key : nat) (result : option CutSet) (cache : LruCache)
    : LruCache :=
  match lru_lookup key cache with
  | Some _ => cache
  | None =>
      if decide (maxsize <= length cache)%nat
      then (key, result) :: removelast cache
      else (key, result) :: cache
  end.

(** The three memoized methods; each has a table of its own, shared by all
    instances of the class. *)
Inductive Accessor := TrainCuts | DevCuts | TestCuts.

#[global] Instance Accessor_eq_dec : EqDecision Accessor.
Proof. solve_decision. Defined.

Record Proc := {
  next_oid : nat;
  train_cuts_cache : LruCache;
  dev_cuts_cache : LruCache;
  test_cuts_cache : LruCache
}.

(** The state of a process that has just imported the module. *)
Definition fresh_proc : Proc :=
  {| next_oid := 0; train_cuts_cache := []; dev_cuts_cache := [];
     test_cuts_cache := [] |}.

Definition cache_of (a : Accessor) (st : Proc) : LruCache :=
  match a with
  | TrainCuts => train_cuts_cache st
  | DevCuts => dev_cuts_cache st
  | TestCuts => test_cuts_cache st
  end.

Definition set_cache (a : Accessor) (c : LruCache) (st : Proc) : Proc :=
  match a with
  | TrainCuts => {| next_oid := next_oid st; train_cuts_cache := c;
                    dev_cuts_cache := dev_cuts_cache st;
                    test_cuts_cache := test_cuts_cache st |}
  | DevCuts => {| next_oid := next_oid st;
                  train_cuts_cache := train_cuts_cache st;
                  dev_cuts_cache := c;
                  test_cuts_cache := test_cuts_cache st |}
  | TestCuts => {| next_oid := next_oid st;
                   train_cuts_cache := train_cuts_cache st;
                   dev_cuts_cache := dev_cuts_cache st;
                   test_cuts_cache := c |}
  end.

(** Computations in the process: a state change and a result or an
    exception (the state reached when it was raised is kept). *)
Definition M (A : Type) : Type := Proc -> outcome A * Proc.

#[global] Instance M_ret : MRet M := fun A a st => (Returned a, st).
#[global] Instance M_bind : MBind M := fun A B f m st =>
  match m st with
  | (Returned a, st') => f a st'
  | (Raised e, st') => (Raised e, st')
  end.

Definition raise {A : Type} (e : Exn) : M A := fun st => (Raised e, st).

(** A new object gets the next identity. *)
Definition new_oid : M nat := fun st =>
  (Returned (next_oid st),
   {| next_oid := S (next_oid st);
      train_cuts_cache := train_cuts_cache st;
      dev_cuts_cache := dev_cuts_cache st;
      test_cuts_cache := test_cuts_cache st |}).

(** [lhotse.load_manifest_lazy(path)] opens the file and reads its first
    line to find the type of the manifest: it raises when the file is
    missing or is not gzip data, returns [None] for a manifest without
    lines, and a new lazy cut set otherwise. *)
Definition load_manifest_lazy (fs : FileSystem) (path : Path)
    : M (option CutSet) :=
  match fs path with
  | None => raise (FileNotFoundError path)
  | Some NotGzip => raise BadGzipFile
  | Some (Manifest items) =>
      match items with
      | [] => mret None
      | _ :: _ => oid ← new_oid; mret (Some (LazyManifest oid path items))
      end
  end.

Definition CutSet_subset (first : nat) (self : CutSet) : M CutSet :=
  oid ← new_oid; mret (SubsetFirst oid first self).

(** [obj.subset(first=n)] on a value that may be [None]: the attribute
    lookup fails on [None]. *)
Definition call_subset (obj : option CutSet) (first : nat) : M CutSet :=
  match obj with
  | Some self => CutSet_subset first self
  | None => raise (AttributeError "subset")
  end.

Definition CutSet_mux (cut_sets : list (option CutSet)) (weights : list Z)
    : M CutSet :=
  oid ← new_oid; mret (LazyMux oid cut_sets weights).

(** The wrapper [lru_cache()(user_function)] called on [key]: a hit
    returns the stored result; a miss runs the function and stores what it
    returns; an exception passes through and nothing is stored. *)
Definition lru_cache (a : Accessor) (user_function : M (option CutSet))
    (key : nat) : M (option CutSet) := fun st =>
  match lru_lookup key (cache_of a st) with
  | Some result =>
      (Returned result, set_cache a (lru_touch key result (cache_of a st)) st)
  | None =>
      match user_function st with
      | (Returned result, st') =>
          (Returned result,
           set_cache a (lru_store key result (cache_of a st')) st')
      | (Raised e, st') => (Raised e, st')
      end
  end.

(** ** GigaSpeechAsrDataModule *)

(** An instance of the class: its identity and the namespace that its
    [args] attribute, set by [__init__], holds when a method is called. *)
Record DataModule := { self_id : nat; args : Namespace }.



Module GigaSpeechAsrDataModule.

Definition train_dataloaders (lhotse : Lhotse) (args : Namespace)
    (cuts_train : CutSet) (sampler_state_dict : option StateDict)
    : outcome DataLoader :=
  input_transforms ←
    (if enable_spec_aug args then
       num_frame_masks_parameter ←
         getitem (DiscretizedInputAugment_init lhotse) "num_frame_masks";
       let num_frame_masks :=
         if py_eq_int (default num_frame_masks_parameter) 1 then 2 else 10 in
       mret [ {| aug_token_type := "wavlm";
                 aug_time_warp_factor := spec_aug_time_warp_factor args;
                 aug_num_frame_masks := num_frame_masks;
                 aug_tokens_mask_size := 27;
                 aug_num_token_masks := 4;
                 aug_frames_mask_size := 100 |} ]
     else mret []);
  let train := {| ds_field := "discrete_tokens";
                  ds_num_tokens := 2000;
                  ds_frequency_size := Some 80;
                  ds_token_type := "wavlm";
                  ds_input_transforms := Some input_transforms |} in
  let train_sampler :=
    if bucketing_sampler args then
      new_sampler (DynamicBucketingSampler cuts_train (max_duration args)
                     (shuffle args) (Some (num_buckets args))
                     (Some (drop_last args)))
    else
      new_sampler (SimpleCutSampler cuts_train (max_duration args)
                     (shuffle args)) in
  let train_sampler :=
    match sampler_state_dict with
    | Some sd => load_state_dict sd train_sampler
    | None => train_sampler
    end in
  let seed := 42 in
  let worker_init_fn := {| seed := seed |} in
  mret {| dl_dataset := train;
          dl_sampler := train_sampler;
          dl_batch_size := None;
          dl_num_workers := num_workers args;
          dl_persistent_workers := Some false;
          dl_worker_init_fn := Some worker_init_fn |}.

Definition valid_dataloaders (args : Namespace) (cuts_valid : CutSet)
    : DataLoader :=
  let validate := {| ds_field := "discrete_tokens";
                     ds_num_tokens := 2000;
                     ds_frequency_size := None;
                     ds_token_type := "wavlm";
                     ds_input_transforms := None |} in
  let valid_sampler :=
    new_sampler (DynamicBucketingSampler cuts_valid (max_duration args)
                   false None None) in
  {| dl_dataset := validate;
     dl_sampler := valid_sampler;
     dl_batch_size := None;
     dl_num_workers := 2;
     dl_persistent_workers := Some false;
     dl_worker_init_fn := None |}.

Definition test_dataloaders (args : Namespace) (cuts : CutSet) : DataLoader :=
  let test := {| ds_field := "discrete_tokens";
                 ds_num_tokens := 2000;
                 ds_frequency_size := None;
                 ds_token_type := "wavlm";
                 ds_input_transforms := None |} in
  let sampler :=
    new_sampler (DynamicBucketingSampler cuts (max_duration args)
                   false None None) in
  {| dl_dataset := test;
     dl_sampler := sampler;
     dl_batch_size := None;
     dl_num_workers := num_workers args;
     dl_persistent_workers := None;
     dl_worker_init_fn := None |}.

(** The body of [train_cuts] under its [lru_cache] decorator. *)
Definition train_cuts_body (fs : FileSystem) (args : Namespace)
    : M (option CutSet) :=
  if decide (subset args = "M") then
    train_cuts ← load_manifest_lazy fs
      (path_div (manifest_dir args) "gigaspeech_cuts_M_future.jsonl.gz");
    train_cuts_sp_0_9 ← load_manifest_lazy fs
      (path_div (manifest_dir args) "gigaspeech_cuts_M-sp0_9_future.jsonl.gz");
    train_cuts_sp_1_1 ← load_manifest_lazy fs
      (path_div (manifest_dir args) "gigaspeech_cuts_M-sp1_1_future.jsonl.gz");
    mixed ← CutSet_mux [train_cuts; train_cuts_sp_0_9; train_cuts_sp_1_1]
                       [909401; 909401; 909401];
    mret (Some mixed)
  else if decide (subset args = "XL") then
    train_cuts ← load_manifest_lazy fs
      (path_div (manifest_dir args) "gigaspeech_cuts_XL.jsonl.gz");
    train_cuts_sp_0_9 ← load_manifest_lazy fs
      (path_div (manifest_dir args) "gigaspeech_cuts_XL-sp0_9.jsonl.gz");
    train_cuts_sp_1_1 ← load_manifest_lazy fs
      (path_div (manifest_dir args) "gigaspeech_cuts_XL-sp1_1.jsonl.gz");
    mixed ← CutSet_mux [train_cuts; train_cuts_sp_0_9; train_cuts_sp_1_1]
                       [8277188; 8277188; 8277188];
    mret (Some mixed)
  else mret None.

Definition dev_cuts_body (fs : FileSystem) (args : Namespace)
    : M (option CutSet) :=
  cuts_valid ← load_manifest_lazy fs
    (path_div (manifest_dir args) "gigaspeech_cuts_DEV_future.jsonl.gz");
  if small_dev args then
    small ← call_subset cuts_valid 1000; mret (Some small)
  else mret cuts_valid.

Definition test_cuts_body (fs : FileSystem) (args : Namespace)
    : M (option CutSet) :=
  load_manifest_lazy fs
    (path_div (manifest_dir args) "gigaspeech_cuts_TEST_future.jsonl.gz").

Definition train_cuts (fs : FileSystem) (self : DataModule) : M (option CutSet) :=
  lru_cache TrainCuts (train_cuts_body fs (args self)) (self_id self).

Definition dev_cuts (fs : FileSystem) (self : DataModule) : M (option CutSet) :=
  lru_cache DevCuts (dev_cuts_body fs (args self)) (self_id self).

Definition test_cuts (fs : FileSystem) (self : DataModule) : M (option CutSet) :=
  lru_cache TestCuts (test_cuts_body fs (args self)) (self_id self).

End GigaSpeechAsrDataModule.

Import GigaSpeechAsrDataModule.

(** ** Helpers for stating and instantiating the properties *)

(** The namespace with [--bucketing-sampler] set to [b]. *)
Definition with_bucketing_sampler (b : bool) (a : Namespace) : Namespace :=
  {| manifest_dir := manifest_dir a; max_duration := max_duration a;
     bucketing_sampler := b; num_buckets := num_buckets a;
     shuffle := shuffle a; drop_last := drop_last a;
     return_cuts := return_cuts a; num_workers := num_workers a;
     enable_spec_aug := enable_spec_aug a;
     spec_aug_time_warp_factor := spec_aug_time_warp_factor a;
     enable_gaussian_noise := enable_gaussian_noise a;
     input_strategy := input_strategy a; subset := subset a;
     small_dev := small_dev a |}.

(** A loader with its sampler's constructor forgotten. *)
Definition besides_sampler_ctor (dl : DataLoader) :=
  (dl_dataset dl, sampler_loaded (dl_sampler dl), dl_batch_size dl,
   dl_num_workers dl, dl_persistent_workers dl, dl_worker_init_fn dl).

Definition outcome_map {A B : Type} (f : A -> B) (o : outcome A) : outcome B :=
  match o with
  | Returned a => Returned (f a)
  | Raised e => Raised e
  end.

(** A Lhotse whose [DiscretizedInputAugment.__init__] declares
    [num_frame_masks] with default [d], next to two other parameters. *)
Definition lhotse_with_default (d : PyVal) : Lhotse :=
  {| DiscretizedInputAugment_init :=
       <["num_frame_masks" := {| default := d |}]>
         (<["time_warp_factor" := {| default := PyInt 80 |}]>
            {["token_type" := {| default := PyEmpty |}]}) |}.

(** A Lhotse whose [DiscretizedInputAugment.__init__] has no parameter
    named [num_frame_masks]. *)
Definition lhotse_without_parameter : Lhotse :=
  {| DiscretizedInputAugment_init :=
       {["token_type" := {| default := PyEmpty |}]} |}.

Definition some_cuts : CutSet :=
  LazyManifest 0 ["data"; "fbank"; "cuts.jsonl.gz"]
    [{| cut_id := "a" |}; {| cut_id := "b" |}].

(** A file system given by the list of its manifests. *)
Fixpoint fs_of_list (files : list (Path * File)) : FileSystem :=
  fun path =>
    match files with
    | [] => None
    | (p, file) :: files' =>
        if decide (p = path) then Some file else fs_of_list files' path
    end.

Definition no_files : FileSystem := fs_of_list [].

(** [n] cuts named after their position. *)
Definition numbered_cuts (n : nat) : list Cut :=
  (fun k => {| cut_id := pretty k |}) <$> seq 0 n.

(** The manifests of the "M" subset, of "DEV" and of "TEST" under
    [data/fbank], with a few cuts each (1002 for "DEV"). *)
Definition sample_fs : FileSystem :=
  fs_of_list
    [ (["data"; "fbank"; "gigaspeech_cuts_M_future.jsonl.gz"],
       Manifest (numbered_cuts 3));
      (["data"; "fbank"; "gigaspeech_cuts_M-sp0_9_future.jsonl.gz"],
       Manifest (numbered_cuts 2));
      (["data"; "fbank"; "gigaspeech_cuts_M-sp1_1_future.jsonl.gz"],
       Manifest (numbered_cuts 1));
      (["data"; "fbank"; "gigaspeech_cuts_DEV_future.jsonl.gz"],
       Manifest (numbered_cuts 1002));
      (["data"; "fbank"; "gigaspeech_cuts_TEST_future.jsonl.gz"],
       Manifest (numbered_cuts 2)) ].

(** The same directory with a dev manifest that holds no cut. *)
Definition empty_dev_fs : FileSystem :=
  fs_of_list
    [ (["data"; "fbank"; "gigaspeech_cuts_DEV_future.jsonl.gz"], Manifest []) ].

(** What [load_manifest_lazy] returns for a manifest holding [cuts], the
    object, if any, getting the identity [oid]; and the number of objects
    it creates. *)
Definition loaded (oid : nat) (path : Path) (cuts : list Cut)
    : option CutSet :=
  match cuts with
  | [] => None
  | _ :: _ => Some (LazyManifest oid path cuts)
  end.

Definition created (cuts : list Cut) : nat :=
  match cuts with
  | [] => 0
  | _ :: _ => 1
  end.

Definition with_subset (s : string) (a : Namespace) : Namespace :=
  {| manifest_dir := manifest_dir a; max_duration := max_duration a;
     bucketing_sampler := bucketing_sampler a; num_buckets := num_buckets a;
     shuffle := shuffle a; drop_last := drop_last a;
     return_cuts := return_cuts a; num_workers := num_workers a;
     enable_spec_aug := enable_spec_aug a;
     spec_aug_time_warp_factor := spec_aug_time_warp_factor a;
     enable_gaussian_noise := enable_gaussian_noise a;
     input_strategy := input_strategy a; subset := s;
     small_dev := small_dev a |}.

Definition with_small_dev (b : bool) (a : Namespace) : Namespace :=
  {| manifest_dir := manifest_dir a; max_duration := max_duration a;
     bucketing_sampler := bucketing_sampler a; num_buckets := num_buckets a;
     shuffle := shuffle a; drop_last := drop_last a;
     return_cuts := return_cuts a; num_workers := num_workers a;
     enable_spec_aug := enable_spec_aug a;
     spec_aug_time_warp_factor := spec_aug_time_warp_factor a;
     enable_gaussian_noise := enable_gaussian_noise a;
     input_strategy := input_strategy a; subset := subset a;
     small_dev := b |}.

(** The process after [n] more objects were created. *)
Definition advance_oid (n : nat) (st : Proc) : Proc :=
  {| next_oid := next_oid st + n;
     train_cuts_cache := train_cuts_cache st;
     dev_cuts_cache := dev_cuts_cache st;
     test_cuts_cache := test_cuts_cache st |}.

(** The table holds [(i, v)], and the entries used more recently than it
    have distinct keys, all from [D]. *)
Definition fronted (i : nat) (v : option CutSet) (D : list nat)
    (cache : LruCache) : Prop :=
  exists pre post,
    cache = pre ++ (i, v) :: post /\
    (i ∉ pre.*1) /\ NoDup (pre.*1) /\ (pre.*1 ⊆ D).

(** The undecorated function behind each accessor, and the accessor. *)
Definition body_of (a : Accessor) : FileSystem -> Namespace -> M (option CutSet) :=
  match a with
  | TrainCuts => train_cuts_body
  | DevCuts => dev_cuts_body
  | TestCuts => test_cuts_body
  end.

Definition call_accessor (a : Accessor) : FileSystem -> DataModule -> M (option CutSet) :=
  match a with
  | TrainCuts => train_cuts
  | DevCuts => dev_cuts
  | TestCuts => test_cuts
  end.

(** One call in the life of a process: which accessor, on which instance
    (with the namespace it holds at that moment), over which files. *)
Record Call := {
  call_which : Accessor;
  call_self : DataModule;
  call_fs : FileSystem
}.

(** Runs the calls in order; yields what each one returned or raised. *)
Fixpoint run_calls (calls : list Call) (st : Proc)
    : list (outcome (option CutSet)) * Proc :=
  match calls with
  | [] => ([], st)
  | c :: calls' =>
      let '(o, st') := call_accessor (call_which c) (call_fs c) (call_self c) st in
      let '(os, st'') := run_calls calls' st' in
      (o :: os, st'')
  end.

(** A computation that leaves the three tables alone. *)
Definition keeps_caches {A : Type} (m : M A) : Prop :=
  forall st a, cache_of a (m st).2 = cache_of a st.

(** What the body of [train_cuts] builds from three manifests named [n0],
    [n1], [n2] mixed with weight [w] each: an object for each manifest that
    holds cuts, and then the multiplexer. *)
Definition train_mix (args : Namespace) (st : Proc) (n0 n1 n2 : string)
    (xs ys zs : list Cut) (w : Z) : CutSet :=
  LazyMux (next_oid st + created xs + created ys + created zs)
    [ loaded (next_oid st) (path_div (manifest_dir args) n0) xs;
      loaded (next_oid st + created xs) (path_div (manifest_dir args) n1) ys;
      loaded (next_oid st + created xs + created ys)
        (path_div (manifest_dir args) n2) zs ]
    [w; w; w].

(** The identity of the cut set that the [k]-th call returned. *)
Definition oid_at (outs : list (outcome (option CutSet))) (k : nat)
    : option nat :=
  match outs !! k with
  | Some (Returned (Some cs)) => Some (id_of cs)
  | _ => None
  end.

(** A call of [test_cuts] on instance [i] with the default namespace. *)
Definition test_call (i : nat) : Call :=
  {| call_which := TestCuts;
     call_self := {| self_id := i; args := default_args |};
     call_fs := sample_fs |}.

(** The namespace with [--return-cuts], [--enable-gaussian-noise] and
    [--input-strategy] replaced. *)
Definition with_unread_flags (rc gn : bool) (strategy : string)
    (a : Namespace) : Namespace :=
  {| manifest_dir := manifest_dir a; max_duration := max_duration a;
     bucketing_sampler := bucketing_sampler a; num_buckets := num_buckets a;
     shuffle := shuffle a; drop_last := drop_last a;
     return_cuts := rc; num_workers := num_workers a;
     enable_spec_aug := enable_spec_aug a;
     spec_aug_time_warp_factor := spec_aug_time_warp_factor a;
     enable_gaussian_noise := gn;
     input_strategy := strategy; subset := subset a;
     small_dev := small_dev a |}.

(** A loader with [f] applied to its sampler. *)
Definition with_sampler (f : CutSampler -> CutSampler) (dl : DataLoader)
    : DataLoader :=
  {| dl_dataset := dl_dataset dl;
     dl_sampler := f (dl_sampler dl);
     dl_batch_size := dl_batch_size dl;
     dl_num_workers := dl_num_workers dl;
     dl_persistent_workers := dl_persistent_workers dl;
     dl_worker_init_fn := dl_worker_init_fn dl |}.

(** A table in good order: no key twice, at most [maxsize] entries. *)
Definition wf_cache (cache : LruCache) : Prop :=
  NoDup (cache.*1) /\ (length cache <= maxsize)%nat.

Definition wf_proc (st : Proc) : Prop :=
  forall a, wf_cache (cache_of a st).

(** ** The loaders *)

Section Loaders.

Variable lhotse : Lhotse.
Variable args : Namespace.
Variable cuts : CutSet.
Variable sampler_state_dict : option StateDict.


(** What the returned loader is made of, whichever branch was taken. *)
Lemma train_dataloaders_inv dl :
  train_dataloaders lhotse args cuts sampler_state_dict = Returned dl ->
  dl_worker_init_fn dl = Some {| seed := 42 |} /\
  dl_num_workers dl = num_workers args /\
  dl_batch_size dl = None /\
  dl_persistent_workers dl = Some false /\
  sampler_loaded (dl_sampler dl) = sampler_state_dict /\
  sampler_ctor (dl_sampler dl) =
    (if bucketing_sampler args
     then DynamicBucketingSampler cuts (max_duration args) (shuffle args)
            (Some (num_buckets args)) (Some (drop_last args))
     else SimpleCutSampler cuts (max_duration args) (shuffle args)).
Proof.
  unfold train_dataloaders, getitem.
  destruct (enable_spec_aug args);
    [destruct (DiscretizedInputAugment_init lhotse !! "num_frame_masks")|];
    cbn; intros H; inversion H; subst; clear H; cbn;
    destruct (bucketing_sampler args), sampler_state_dict; cbn; auto 10.
Qed.

End Loaders.

(** C1.  Called with worker id [w], the initializer built from base seed [s]
    seeds the worker's generators with [s + w], whatever their state was;
    and the initializer that [train_dataloaders] installs in the loader it
    returns has base seed 42 for every configuration, Lhotse version, cut
    set and sampler state, so worker [w] is seeded with [42 + w]. *)
Theorem worker_seed_is_base_plus_worker_id :
  (forall (s w : Z) (rng : Rng),
     rng_seed (_SeedWorkers_call {| seed := s |} w rng) = s + w) /\
  (forall lhotse args cuts sampler_state_dict dl,
     train_dataloaders lhotse args cuts sampler_state_dict = Returned dl ->
     dl_worker_init_fn dl = Some {| seed := 42 |} /\
     forall (init : _SeedWorkers) (w : Z) (rng : Rng),
       dl_worker_init_fn dl = Some init ->
       rng_seed (_SeedWorkers_call init w rng) = 42 + w).
Proof.
  split.
  - reflexivity.
  - intros lhotse args cuts sd dl Hdl.
    destruct (train_dataloaders_inv _ _ _ _ _ Hdl) as (Hinit & _).
    split; [exact Hinit|].
    intros init w rng Hi. rewrite Hinit in Hi. now inversion Hi.
Qed.

Lemma worker_seed_is_base_plus_worker_id_witness :
  train_dataloaders (lhotse_with_default (PyInt 1)) default_args some_cuts None
  = Returned
      {| dl_dataset :=
           {| ds_field := "discrete_tokens"; ds_num_tokens := 2000;
              ds_frequency_size := Some 80; ds_token_type := "wavlm";
              ds_input_transforms :=
                Some [ {| aug_token_type := "wavlm";
                          aug_time_warp_factor := 80;
                          aug_num_frame_masks := 2;
                          aug_tokens_mask_size := 27;
                          aug_num_token_masks := 4;
                          aug_frames_mask_size := 100 |} ] |};
         dl_sampler :=
           new_sampler (DynamicBucketingSampler some_cuts 1000 true
                          (Some 30) (Some true));
         dl_batch_size := None; dl_num_workers := 2;
         dl_persistent_workers := Some false;
         dl_worker_init_fn := Some {| seed := 42 |} |} /\
  rng_seed (_SeedWorkers_call {| seed := 42 |} 3
              {| rng_seed := 7; rng_draws := 5 |}) = 45.
Proof.
  assert (Hrun : train_dataloaders (lhotse_with_default (PyInt 1))
                   default_args some_cuts None = Returned _)
    by (vm_compute; reflexivity).
  split; [exact Hrun|].
  destruct (proj2 worker_seed_is_base_plus_worker_id _ _ _ _ _ Hrun)
    as [Hinit Hseed].
  exact (Hseed _ 3 {| rng_seed := 7; rng_draws := 5 |} Hinit).
Defined.

(** C5.  With [--enable-spec-aug] false, [train_dataloaders] returns (it
    does not consult the Lhotse signature) and the training dataset is
    constructed with the empty list of input transforms. *)
Theorem no_spec_aug_no_input_transforms lhotse args cuts sampler_state_dict :
  enable_spec_aug args = false ->
  exists dl,
    train_dataloaders lhotse args cuts sampler_state_dict = Returned dl /\
    ds_input_transforms (dl_dataset dl) = Some [].
Proof.
  intros Hoff. unfold train_dataloaders. rewrite Hoff. cbn.
  eexists. split; reflexivity.
Qed.

Lemma no_spec_aug_no_input_transforms_witness :
  exists dl,
    train_dataloaders lhotse_without_parameter
      (with_bucketing_sampler false
         {| manifest_dir := ["data"; "fbank"]; max_duration := 600;
            bucketing_sampler := true; num_buckets := 30; shuffle := true;
            drop_last := true; return_cuts := true; num_workers := 4;
            enable_spec_aug := false; spec_aug_time_warp_factor := 80;
            enable_gaussian_noise := true; input_strategy := "AudioSamples";
            subset := "XL"; small_dev := true |})
      some_cuts None = Returned dl /\
    ds_input_transforms (dl_dataset dl) = Some [].
Proof.
  apply no_spec_aug_no_input_transforms. reflexivity.
Defined.

(** C6.  With [--enable-spec-aug] true and a Lhotse whose
    [DiscretizedInputAugment.__init__] declares [num_frame_masks] with
    default [d], the training dataset gets exactly one transform, built with
    [num_frame_masks] 2 when [d == 1] and 10 otherwise (in particular 2 for
    the integer 1 and 10 for any other integer, for [None] and for a
    parameter without default); its other arguments are the configured
    time-warp factor and the literals of the source. *)
Theorem num_frame_masks_follows_library_default
    lhotse args cuts sampler_state_dict (p : Param) :
  enable_spec_aug args = true ->
  DiscretizedInputAugment_init lhotse !! "num_frame_masks" = Some p ->
  exists dl,
    train_dataloaders lhotse args cuts sampler_state_dict = Returned dl /\
    ds_input_transforms (dl_dataset dl) =
      Some [ {| aug_token_type := "wavlm";
                aug_time_warp_factor := spec_aug_time_warp_factor args;
                aug_num_frame_masks :=
                  if py_eq_int (default p) 1 then 2 else 10;
                aug_tokens_mask_size := 27;
                aug_num_token_masks := 4;
                aug_frames_mask_size := 100 |} ] /\
    (default p = PyInt 1 -> py_eq_int (default p) 1 = true) /\
    (forall z, default p = PyInt z -> z <> 1 ->
               py_eq_int (default p) 1 = false) /\
    (default p = PyNone \/ default p = PyEmpty ->
     py_eq_int (default p) 1 = false).
Proof.
  intros Hon Hsig. unfold train_dataloaders, getitem.
  rewrite Hon, Hsig. cbn.
  eexists. split; [reflexivity|]. split; [reflexivity|].
  repeat split.
  - now intros ->.
  - intros z -> Hz. cbn. now apply Z.eqb_neq.
  - now intros [-> | ->].
Qed.

Lemma num_frame_masks_follows_library_default_witness :
  exists dl,
    train_dataloaders (lhotse_with_default (PyInt 10)) default_args
      some_cuts None = Returned dl /\
    ds_input_transforms (dl_dataset dl) =
      Some [ {| aug_token_type := "wavlm";
                aug_time_warp_factor := 80;
                aug_num_frame_masks := 10;
                aug_tokens_mask_size := 27;
                aug_num_token_masks := 4;
                aug_frames_mask_size := 100 |} ].
Proof.
  destruct (num_frame_masks_follows_library_default
              (lhotse_with_default (PyInt 10)) default_args some_cuts None
              {| default := PyInt 10 |} eq_refl eq_refl)
    as (dl & Hrun & Htr & _).
  exists dl. split; [exact Hrun | exact Htr].
Defined.

(** Python compares by value: a default of [True] equals 1 as well. *)
Example num_frame_masks_for_default_True :
  outcome_map (fun dl => ds_input_transforms (dl_dataset dl))
    (train_dataloaders (lhotse_with_default (PyBool true)) default_args
       some_cuts None)
  = outcome_map (fun dl => ds_input_transforms (dl_dataset dl))
      (train_dataloaders (lhotse_with_default (PyInt 1)) default_args
         some_cuts None).
Proof. vm_compute. reflexivity. Qed.

(** Without the parameter in the signature the lookup raises. *)
Example num_frame_masks_parameter_missing :
  train_dataloaders lhotse_without_parameter default_args some_cuts None
  = Raised (KeyError "num_frame_masks").
Proof. vm_compute. reflexivity. Qed.



(** C8.  [valid_dataloaders] and [test_dataloaders] construct their datasets
    without passing input transforms and their samplers with
    [shuffle=False]; the validation loader has 2 workers whatever the
    configuration says, the test loader has the configured number. *)
Theorem valid_test_no_augment_no_shuffle (args : Namespace) (cuts : CutSet) :
  ds_input_transforms (dl_dataset (valid_dataloaders args cuts)) = None /\
  ds_input_transforms (dl_dataset (test_dataloaders args cuts)) = None /\
  sampler_ctor (dl_sampler (valid_dataloaders args cuts)) =
    DynamicBucketingSampler cuts (max_duration args) false None None /\
  sampler_ctor (dl_sampler (test_dataloaders args cuts)) =
    DynamicBucketingSampler cuts (max_duration args) false None None /\
  dl_num_workers (valid_dataloaders args cuts) = 2 /\
  dl_num_workers (test_dataloaders args cuts) = num_workers args.
Proof.
  repeat split; cbn; eauto.
Qed.

(** C10.  [valid_dataloaders] and [test_dataloaders] construct a
    [DynamicBucketingSampler] (max duration from the configuration, no
    shuffling, bucket count and drop-last left to the library) and return
    the same loader for either value of [--bucketing-sampler]; so do the
    bodies of the three cut accessors; in [train_dataloaders] the flag
    changes nothing but the constructor of the sampler. *)
Theorem eval_samplers_ignore_bucketing_flag
    (lhotse : Lhotse) (args : Namespace) (cuts : CutSet)
    (sampler_state_dict : option StateDict) (fs : FileSystem) (b : bool) :
  sampler_ctor (dl_sampler (valid_dataloaders args cuts)) =
    DynamicBucketingSampler cuts (max_duration args) false None None /\
  sampler_ctor (dl_sampler (test_dataloaders args cuts)) =
    DynamicBucketingSampler cuts (max_duration args) false None None /\
  valid_dataloaders (with_bucketing_sampler b args) cuts =
    valid_dataloaders args cuts /\
  test_dataloaders (with_bucketing_sampler b args) cuts =
    test_dataloaders args cuts /\
  train_cuts_body fs (with_bucketing_sampler b args) = train_cuts_body fs args /\
  dev_cuts_body fs (with_bucketing_sampler b args) = dev_cuts_body fs args /\
  test_cuts_body fs (with_bucketing_sampler b args) = test_cuts_body fs args /\
  outcome_map besides_sampler_ctor
    (train_dataloaders lhotse (with_bucketing_sampler b args) cuts
       sampler_state_dict) =
  outcome_map besides_sampler_ctor
    (train_dataloaders lhotse args cuts sampler_state_dict).
Proof.
  repeat split.
  unfold train_dataloaders, getitem. cbn.
  destruct (enable_spec_aug args);
    [destruct (DiscretizedInputAugment_init lhotse !! "num_frame_masks")|];
    cbn; try reflexivity;
    destruct b, (bucketing_sampler args), sampler_state_dict; reflexivity.
Qed.

(** The flag does matter for training: the two values give different
    samplers. *)
Example train_sampler_depends_on_flag :
  outcome_map (fun dl => sampler_ctor (dl_sampler dl))
    (train_dataloaders (lhotse_with_default (PyInt 1))
       (with_bucketing_sampler true default_args) some_cuts None)
  <> outcome_map (fun dl => sampler_ctor (dl_sampler dl))
       (train_dataloaders (lhotse_with_default (PyInt 1))
          (with_bucketing_sampler false default_args) some_cuts None).
Proof. vm_compute. discriminate. Qed.

(** ** The lru_cache tables *)

Lemma lru_lookup_touch key result cache :
  lru_lookup key (lru_touch key result cache) = Some result.
Proof. unfold lru_touch. cbn. now rewrite decide_True. Qed.

Lemma lru_lookup_store key result cache :
  lru_lookup key cache = None ->
  lru_lookup key (lru_store key result cache) = Some result.
Proof.
  intros Hmiss. unfold lru_store. rewrite Hmiss.
  destruct (decide (maxsize <= length cache)%nat); cbn; now rewrite decide_True.
Qed.

Lemma cache_of_set_cache a c st : cache_of a (set_cache a c st) = c.
Proof. now destruct a. Qed.

Lemma cache_of_set_cache_ne a a' c st :
  a <> a' -> cache_of a' (set_cache a c st) = cache_of a' st.
Proof. now destruct a, a'. Qed.

Lemma next_oid_set_cache a c st : next_oid (set_cache a c st) = next_oid st.
Proof. now destruct a. Qed.

Lemma keeps_caches_ret {A} (x : A) : keeps_caches (mret x).
Proof. now intros st a. Qed.

Lemma keeps_caches_raise {A} e : keeps_caches (@raise A e).
Proof. now intros st a. Qed.

Lemma keeps_caches_bind {A B} (m : M A) (f : A -> M B) :
  keeps_caches m -> (forall x, keeps_caches (f x)) -> keeps_caches (m ≫= f).
Proof.
  intros Hm Hf st a. unfold mbind, M_bind.
  specialize (Hm st a). destruct (m st) as [[x|e] st']; cbn in *.
  - now rewrite Hf.
  - exact Hm.
Qed.

Lemma keeps_caches_new_oid : keeps_caches new_oid.
Proof. now intros st []. Qed.

Lemma keeps_caches_load fs path : keeps_caches (load_manifest_lazy fs path).
Proof.
  unfold load_manifest_lazy. destruct (fs path) as [[[|c items]|]|].
  - apply keeps_caches_ret.
  - apply keeps_caches_bind; [apply keeps_caches_new_oid|].
    intros; apply keeps_caches_ret.
  - apply keeps_caches_raise.
  - apply keeps_caches_raise.
Qed.

Lemma keeps_caches_call_subset obj first :
  keeps_caches (call_subset obj first).
Proof.
  destruct obj; cbn.
  - apply keeps_caches_bind; [apply keeps_caches_new_oid|].
    intros; apply keeps_caches_ret.
  - apply keeps_caches_raise.
Qed.

Create HintDb caches.

#[local] Hint Resolve keeps_caches_ret keeps_caches_raise keeps_caches_new_oid
  keeps_caches_load keeps_caches_call_subset : caches.

Lemma keeps_caches_body a fs args : keeps_caches (body_of a fs args).
Proof.
  destruct a; cbn;
    unfold train_cuts_body, dev_cuts_body, test_cuts_body,
      CutSet_mux, CutSet_subset;
    repeat first
      [ case_decide
      | match goal with |- context [if ?b then _ else _] => destruct b end
      | apply keeps_caches_bind; [auto with caches | intros ?]
      | solve [auto with caches] ].
Qed.

Lemma call_accessor_unfold a fs self :
  call_accessor a fs self = lru_cache a (body_of a fs (args self)) (self_id self).
Proof. now destruct a. Qed.

(** A hit: the stored result comes back and stays stored; the call creates
    no object. *)
Lemma lru_cache_hit a body key result st :
  lru_lookup key (cache_of a st) = Some result ->
  exists st',
    lru_cache a body key st = (Returned result, st') /\
    lru_lookup key (cache_of a st') = Some result /\
    next_oid st' = next_oid st.
Proof.
  intros Hhit. unfold lru_cache. rewrite Hhit. eexists. split; [reflexivity|].
  rewrite cache_of_set_cache, lru_lookup_touch, next_oid_set_cache. auto.
Qed.

(** A miss runs the function; what it returns is stored. *)
Lemma lru_cache_miss a body key st :
  keeps_caches body ->
  lru_lookup key (cache_of a st) = None ->
  match body st with
  | (Returned result, st1) =>
      exists st',
        lru_cache a body key st = (Returned result, st') /\
        lru_lookup key (cache_of a st') = Some result /\
        next_oid st' = next_oid st1
  | (Raised e, st1) => lru_cache a body key st = (Raised e, st1)
  end.
Proof.
  intros Hkeep Hmiss. unfold lru_cache. rewrite Hmiss.
  specialize (Hkeep st a). destruct (body st) as [[result|e] st1]; cbn in *.
  - eexists. split; [reflexivity|].
    rewrite cache_of_set_cache, next_oid_set_cache. split; [|reflexivity].
    apply lru_lookup_store. congruence.
  - reflexivity.
Qed.

(** Whatever way a call returned, its result is in the table afterwards. *)
Lemma returned_is_cached a fs self st result st' :
  call_accessor a fs self st = (Returned result, st') ->
  lru_lookup (self_id self) (cache_of a st') = Some result.
Proof.
  rewrite call_accessor_unfold. intros Hcall.
  destruct (lru_lookup (self_id self) (cache_of a st)) as [r|] eqn:Hl.
  - destruct (lru_cache_hit a (body_of a fs (args self)) _ _ _ Hl)
      as (st1 & Hrun & Hc & _).
    rewrite Hrun in Hcall. now inversion Hcall; subst.
  - pose proof (lru_cache_miss a _ _ _ (keeps_caches_body a fs (args self)) Hl)
      as Hm.
    destruct (body_of a fs (args self) st) as [[r|e] st1].
    + destruct Hm as (st2 & Hrun & Hc & _).
      rewrite Hrun in Hcall. now inversion Hcall; subst.
    + rewrite Hm in Hcall. discriminate.
Qed.

(** A call on the same instance, through any accessor and with any
    namespace and files, keeps an entry of that instance where it is. *)
Lemma cached_stays a a' fs self st result :
  lru_lookup (self_id self) (cache_of a st) = Some result ->
  lru_lookup (self_id self) (cache_of a (call_accessor a' fs self st).2)
  = Some result.
Proof.
  intros Hc. rewrite call_accessor_unfold.
  destruct (decide (a' = a)) as [->|Hne].
  - destruct (lru_cache_hit a (body_of a fs (args self)) _ _ _ Hc)
      as (st1 & -> & Hc1 & _). exact Hc1.
  - unfold lru_cache.
    destruct (lru_lookup (self_id self) (cache_of a' st)); cbn.
    + now rewrite cache_of_set_cache_ne.
    + pose proof (keeps_caches_body a' fs (args self) st a) as Hk.
      destruct (body_of a' fs (args self) st) as [[r|e] st1]; cbn in *.
      * rewrite cache_of_set_cache_ne by done. congruence.
      * congruence.
Qed.

Lemma run_calls_cons c calls st :
  run_calls (c :: calls) st =
    ((call_accessor (call_which c) (call_fs c) (call_self c) st).1
       :: (run_calls calls
             (call_accessor (call_which c) (call_fs c) (call_self c) st).2).1,
     (run_calls calls
        (call_accessor (call_which c) (call_fs c) (call_self c) st).2).2).
Proof.
  cbn. destruct (call_accessor _ _ _ st) as [o st1]. cbn.
  now destruct (run_calls calls st1).
Qed.

(** Once an instance has an entry in an accessor's table, every later call
    of that accessor on the instance returns the entry, as long as the
    calls in between are on that instance too. *)
Lemma cached_then_returned i a result calls :
  Forall (fun c => self_id (call_self c) = i) calls ->
  forall st k ck,
    lru_lookup i (cache_of a st) = Some result ->
    calls !! k = Some ck ->
    call_which ck = a ->
    (run_calls calls st).1 !! k = Some (Returned result).
Proof.
  induction 1 as [|c calls Hc Hcalls IH]; intros st k ck Hl Hk Ha.
  - discriminate.
  - rewrite run_calls_cons. cbn [fst]. destruct k as [|k]; cbn in *.
    + inversion Hk; subst ck. rewrite call_accessor_unfold, Hc.
      destruct (lru_cache_hit (call_which c)
                  (body_of (call_which c) (call_fs c) (args (call_self c)))
                  i result st) as (st1 & -> & _); [now subst a|]. reflexivity.
    + apply (IH _ _ ck); [|exact Hk|exact Ha].
      rewrite <- Hc in Hl |- *. now apply cached_stays.
Qed.

(** On one instance alone: in a sequence of calls of [train_cuts],
    [dev_cuts] and [test_cuts] that are all on the same instance, from any
    state of the process, a call that follows a returned call of the same
    accessor returns the very same value, even if the namespace of the
    instance or the files have changed in between. *)
Lemma accessors_memoized (i : nat) (calls : list Call) (st : Proc)
    (j k : nat) (cj ck : Call) (result : option CutSet) :
  Forall (fun c => self_id (call_self c) = i) calls ->
  (j < k)%nat ->
  calls !! j = Some cj ->
  calls !! k = Some ck ->
  call_which cj = call_which ck ->
  (run_calls calls st).1 !! j = Some (Returned result) ->
  (run_calls calls st).1 !! k = Some (Returned result).
Proof.
  intros Hall. revert st j k cj.
  induction Hall as [|c calls Hc Hcalls IH]; intros st j k cj Hjk Hj Hk Ha Hret.
  - discriminate.
  - rewrite run_calls_cons in Hret |- *. cbn [fst] in *.
    destruct k as [|k]; [lia|]. destruct j as [|j]; cbn in *.
    + assert (cj = c) as -> by congruence.
      apply (cached_then_returned i (call_which c) result calls Hcalls _ k ck);
        [|exact Hk|congruence].
      rewrite <- Hc.
      apply (returned_is_cached _ (call_fs c) _ st).
      destruct (call_accessor _ _ _ st) as [o st1]. cbn in *. congruence.
    + apply (IH _ j k cj); auto with lia.
Qed.

Lemma accessors_memoized_witness :
  (run_calls
     [ {| call_which := TrainCuts;
          call_self := {| self_id := 7; args := default_args |};
          call_fs := sample_fs |};
       {| call_which := DevCuts;
          call_self := {| self_id := 7; args := default_args |};
          call_fs := sample_fs |};
       {| call_which := TrainCuts;
          call_self := {| self_id := 7; args := with_subset "XL" default_args |};
          call_fs := no_files |} ]
     fresh_proc).1 !! 2%nat
  = Some (Returned (Some
      (LazyMux 3
         [ Some (LazyManifest 0
                   ["data"; "fbank"; "gigaspeech_cuts_M_future.jsonl.gz"]
                   (numbered_cuts 3));
           Some (LazyManifest 1
                   ["data"; "fbank"; "gigaspeech_cuts_M-sp0_9_future.jsonl.gz"]
                   (numbered_cuts 2));
           Some (LazyManifest 2
                   ["data"; "fbank"; "gigaspeech_cuts_M-sp1_1_future.jsonl.gz"]
                   (numbered_cuts 1)) ]
         [909401; 909401; 909401]))).
Proof.
  eapply (accessors_memoized 7 _ fresh_proc 0 2).
  - repeat constructor.
  - lia.
  - reflexivity.
  - reflexivity.
  - reflexivity.
  - vm_compute. reflexivity.
Defined.

(** ** The accessor bodies *)

Lemma advance_oid_0 st : advance_oid 0 st = st.
Proof. destruct st. unfold advance_oid. cbn. f_equal. lia. Qed.

Lemma load_manifest_lazy_found fs path items st :
  fs path = Some (Manifest items) ->
  load_manifest_lazy fs path st
  = (Returned (loaded (next_oid st) path items),
     advance_oid (created items) st).
Proof.
  intros Hf. unfold load_manifest_lazy. rewrite Hf.
  destruct items as [|c items]; cbn.
  - now rewrite advance_oid_0.
  - unfold advance_oid. now rewrite Nat.add_1_r.
Qed.

Lemma CutSet_mux_run cut_sets weights st :
  CutSet_mux cut_sets weights st
  = (Returned (LazyMux (next_oid st) cut_sets weights), advance_oid 1 st).
Proof. unfold advance_oid. rewrite Nat.add_1_r. reflexivity. Qed.

Lemma CutSet_subset_run first cs st :
  CutSet_subset first cs st
  = (Returned (SubsetFirst (next_oid st) first cs), advance_oid 1 st).
Proof. unfold advance_oid. rewrite Nat.add_1_r. reflexivity. Qed.

Lemma advance_oid_twice n m st :
  advance_oid n (advance_oid m st) = advance_oid (m + n) st.
Proof. unfold advance_oid. cbn. f_equal. lia. Qed.

(** The body of [train_cuts] with three readable manifests. *)
Lemma train_cuts_body_mix fs args st sel w n0 n1 n2 xs ys zs :
  subset args = sel ->
  (sel = "M" /\ w = 909401 /\
   n0 = "gigaspeech_cuts_M_future.jsonl.gz" /\
   n1 = "gigaspeech_cuts_M-sp0_9_future.jsonl.gz" /\
   n2 = "gigaspeech_cuts_M-sp1_1_future.jsonl.gz") \/
  (sel = "XL" /\ w = 8277188 /\
   n0 = "gigaspeech_cuts_XL.jsonl.gz" /\
   n1 = "gigaspeech_cuts_XL-sp0_9.jsonl.gz" /\
   n2 = "gigaspeech_cuts_XL-sp1_1.jsonl.gz") ->
  fs (path_div (manifest_dir args) n0) = Some (Manifest xs) ->
  fs (path_div (manifest_dir args) n1) = Some (Manifest ys) ->
  fs (path_div (manifest_dir args) n2) = Some (Manifest zs) ->
  train_cuts_body fs args st
  = (Returned (Some (train_mix args st n0 n1 n2 xs ys zs w)),
     advance_oid (created xs + created ys + created zs + 1) st).
Proof.
  intros Hsel Hcase H0 H1 H2. unfold train_cuts_body, train_mix.
  destruct Hcase as [(-> & -> & -> & -> & ->) | (-> & -> & -> & -> & ->)];
    rewrite Hsel; cbn [decide];
    repeat (case_decide; try discriminate; try congruence);
    unfold mbind, M_bind;
    rewrite (load_manifest_lazy_found _ _ _ _ H0);
    rewrite (load_manifest_lazy_found _ _ _ _ H1);
    rewrite (load_manifest_lazy_found _ _ _ _ H2);
    rewrite CutSet_mux_run, !advance_oid_twice; cbn [next_oid advance_oid];
    rewrite !Nat.add_assoc; reflexivity.
Qed.

(** C2.  On its first call for an instance whose subset is "M", with the
    three manifests [..._M_future], [..._M-sp0_9_future] and
    [..._M-sp1_1_future] readable, [train_cuts] returns the multiplexer of
    what [load_manifest_lazy] gave for these three files, in this order,
    with weights 909401, 909401 and 909401; for "XL", with the manifests
    [..._XL], [..._XL-sp0_9] and [..._XL-sp1_1], the weights are 8277188
    each.  (A stream is the lazy cut set of its file, or [None] when the
    file holds no cut.) *)
Theorem train_cuts_mux_weights
    (fs : FileSystem) (self : DataModule) (st : Proc)
    (sel : string) (w : Z) (n0 n1 n2 : string) (xs ys zs : list Cut) :
  subset (args self) = sel ->
  (sel = "M" /\ w = 909401 /\
   n0 = "gigaspeech_cuts_M_future.jsonl.gz" /\
   n1 = "gigaspeech_cuts_M-sp0_9_future.jsonl.gz" /\
   n2 = "gigaspeech_cuts_M-sp1_1_future.jsonl.gz") \/
  (sel = "XL" /\ w = 8277188 /\
   n0 = "gigaspeech_cuts_XL.jsonl.gz" /\
   n1 = "gigaspeech_cuts_XL-sp0_9.jsonl.gz" /\
   n2 = "gigaspeech_cuts_XL-sp1_1.jsonl.gz") ->
  fs (path_div (manifest_dir (args self)) n0) = Some (Manifest xs) ->
  fs (path_div (manifest_dir (args self)) n1) = Some (Manifest ys) ->
  fs (path_div (manifest_dir (args self)) n2) = Some (Manifest zs) ->
  lru_lookup (self_id self) (train_cuts_cache st) = None ->
  exists st',
    train_cuts fs self st =
      (Returned
         (Some
            (LazyMux (next_oid st + created xs + created ys + created zs)
               [ loaded (next_oid st)
                   (path_div (manifest_dir (args self)) n0) xs;
                 loaded (next_oid st + created xs)
                   (path_div (manifest_dir (args self)) n1) ys;
                 loaded (next_oid st + created xs + created ys)
                   (path_div (manifest_dir (args self)) n2) zs ]
               [w; w; w])),
       st').
Proof.
  intros Hsel Hcase H0 H1 H2 Hmiss.
  pose proof (lru_cache_miss TrainCuts (train_cuts_body fs (args self))
                (self_id self) st (keeps_caches_body TrainCuts fs (args self))
                Hmiss) as Hrun.
  rewrite (train_cuts_body_mix fs (args self) st sel w n0 n1 n2 xs ys zs
             Hsel Hcase H0 H1 H2) in Hrun.
  destruct Hrun as (st' & Hrun & _). exists st'. exact Hrun.
Qed.

Lemma train_cuts_mux_weights_witness :
  exists st',
    train_cuts sample_fs {| self_id := 1; args := default_args |} fresh_proc =
      (Returned
         (Some
            (LazyMux 3
               [ Some (LazyManifest 0
                         ["data"; "fbank"; "gigaspeech_cuts_M_future.jsonl.gz"]
                         (numbered_cuts 3));
                 Some (LazyManifest 1
                         ["data"; "fbank";
                          "gigaspeech_cuts_M-sp0_9_future.jsonl.gz"]
                         (numbered_cuts 2));
                 Some (LazyManifest 2
                         ["data"; "fbank";
                          "gigaspeech_cuts_M-sp1_1_future.jsonl.gz"]
                         (numbered_cuts 1)) ]
               [909401; 909401; 909401])),
       st').
Proof.
  exact (train_cuts_mux_weights sample_fs
           {| self_id := 1; args := default_args |} fresh_proc
           "M" 909401
           "gigaspeech_cuts_M_future.jsonl.gz"
           "gigaspeech_cuts_M-sp0_9_future.jsonl.gz"
           "gigaspeech_cuts_M-sp1_1_future.jsonl.gz"
           (numbered_cuts 3) (numbered_cuts 2) (numbered_cuts 1)
           eq_refl
           (or_introl (conj eq_refl (conj eq_refl
              (conj eq_refl (conj eq_refl eq_refl)))))
           eq_refl eq_refl eq_refl eq_refl).
Defined.

(** With a manifest that holds no cut the multiplexer is built all the
    same, over [None] in the place of that stream. *)
Example train_cuts_empty_manifest :
  (train_cuts
     (fs_of_list
        [ (["data"; "fbank"; "gigaspeech_cuts_XL.jsonl.gz"],
           Manifest (numbered_cuts 2));
          (["data"; "fbank"; "gigaspeech_cuts_XL-sp0_9.jsonl.gz"], Manifest []);
          (["data"; "fbank"; "gigaspeech_cuts_XL-sp1_1.jsonl.gz"],
           Manifest (numbered_cuts 1)) ])
     {| self_id := 1; args := with_subset "XL" default_args |} fresh_proc).1
  = Returned
      (Some
         (LazyMux 2
            [ Some (LazyManifest 0
                      ["data"; "fbank"; "gigaspeech_cuts_XL.jsonl.gz"]
                      (numbered_cuts 2));
              None;
              Some (LazyManifest 1
                      ["data"; "fbank"; "gigaspeech_cuts_XL-sp1_1.jsonl.gz"]
                      (numbered_cuts 1)) ]
            [8277188; 8277188; 8277188])).
Proof. vm_compute. reflexivity. Qed.

(** Nothing is multiplexed when one of the three manifests is missing: the
    fault of the loader comes out of [train_cuts]. *)
Example train_cuts_missing_manifest :
  (train_cuts sample_fs
     {| self_id := 1; args := with_subset "XL" default_args |} fresh_proc).1
  = Raised (FileNotFoundError ["data"; "fbank"; "gigaspeech_cuts_XL.jsonl.gz"]).
Proof. vm_compute. reflexivity. Qed.

(** C9.  For a subset other than "M" and "XL" the body of [train_cuts] falls
    through both branches: it returns [None], raises nothing, reads no file
    and creates no object.  So does the first call of [train_cuts] on an
    instance, whatever the files are, and [None] is what every later call
    on that instance returns. *)
Theorem train_cuts_other_subset_is_None
    (fs : FileSystem) (self : DataModule) (st : Proc) :
  subset (args self) <> "M" ->
  subset (args self) <> "XL" ->
  lru_lookup (self_id self) (train_cuts_cache st) = None ->
  train_cuts_body fs (args self) st = (Returned None, st) /\
  exists st',
    train_cuts fs self st = (Returned None, st') /\
    next_oid st' = next_oid st /\
    forall fs' self',
      self_id self' = self_id self ->
      (train_cuts fs' self' st').1 = Returned None.
Proof.
  intros HM HXL Hmiss.
  assert (Hbody : train_cuts_body fs (args self) st = (Returned None, st)).
  { unfold train_cuts_body. now rewrite !decide_False. }
  split; [exact Hbody|].
  pose proof (lru_cache_miss TrainCuts (train_cuts_body fs (args self))
                (self_id self) st (keeps_caches_body TrainCuts fs (args self))
                Hmiss) as Hrun.
  rewrite Hbody in Hrun. destruct Hrun as (st' & Hrun & Hc & Hoid).
  exists st'. split; [exact Hrun|]. split; [exact Hoid|].
  intros fs' self' Hid. rewrite <- Hid in Hc.
  destruct (lru_cache_hit TrainCuts (train_cuts_body fs' (args self'))
              _ _ _ Hc) as (st2 & Hrun2 & _).
  unfold train_cuts. now rewrite Hrun2.
Qed.

Lemma train_cuts_other_subset_is_None_witness :
  train_cuts_body no_files (with_subset "S" default_args) fresh_proc
  = (Returned None, fresh_proc) /\
  exists st',
    train_cuts no_files
      {| self_id := 5; args := with_subset "S" default_args |} fresh_proc
    = (Returned None, st') /\
    next_oid st' = 0%nat /\
    forall fs' self',
      self_id self' = 5%nat ->
      (train_cuts fs' self' st').1 = Returned None.
Proof.
  apply (train_cuts_other_subset_is_None no_files
           {| self_id := 5; args := with_subset "S" default_args |} fresh_proc).
  - discriminate.
  - discriminate.
  - reflexivity.
Defined.

(** The subsets the command line advertises besides "M" and "XL". *)
Example train_cuts_XS_S_L :
  (fun s => (train_cuts sample_fs
               {| self_id := 5; args := with_subset s default_args |}
               fresh_proc).1) <$> ["XS"; "S"; "L"]
  = [Returned None; Returned None; Returned None].
Proof. vm_compute. reflexivity. Qed.

Lemma dev_cuts_body_run fs args st xs :
  fs (path_div (manifest_dir args) "gigaspeech_cuts_DEV_future.jsonl.gz")
  = Some (Manifest xs) ->
  dev_cuts_body fs args st =
    match xs with
    | [] =>
        if small_dev args
        then (Raised (AttributeError "subset"), st)
        else (Returned None, st)
    | _ :: _ =>
        let cuts_valid :=
          LazyManifest (next_oid st)
            (path_div (manifest_dir args)
               "gigaspeech_cuts_DEV_future.jsonl.gz") xs in
        if small_dev args
        then (Returned (Some (SubsetFirst (next_oid st + 1) 1000 cuts_valid)),
              advance_oid 2 st)
        else (Returned (Some cuts_valid), advance_oid 1 st)
    end.
Proof.
  intros Hf. unfold dev_cuts_body, mbind, M_bind.
  rewrite (load_manifest_lazy_found _ _ _ _ Hf).
  destruct xs as [|x xs]; cbn [loaded created].
  - rewrite advance_oid_0. now destruct (small_dev args).
  - destruct (small_dev args); [|reflexivity].
    cbn [call_subset]. rewrite CutSet_subset_run, advance_oid_twice.
    reflexivity.
Qed.

(** C3 (amended).  Over a readable dev manifest holding the cuts [xs], at
    least one, the first call of [dev_cuts] with [--small-dev] set returns a
    cut set whose cuts are the first 1000 of [xs] (all of them when there
    are fewer), which is a prefix of the cuts of the set returned when the
    flag is unset, namely [xs]. *)
Theorem dev_cuts_small_is_first_1000
    (fs : FileSystem) (self_small self_full : DataModule) (st : Proc)
    (xs : list Cut) :
  small_dev (args self_small) = true ->
  small_dev (args self_full) = false ->
  manifest_dir (args self_small) = manifest_dir (args self_full) ->
  fs (path_div (manifest_dir (args self_full))
        "gigaspeech_cuts_DEV_future.jsonl.gz") = Some (Manifest xs) ->
  xs <> [] ->
  lru_lookup (self_id self_small) (dev_cuts_cache st) = None ->
  lru_lookup (self_id self_full) (dev_cuts_cache st) = None ->
  exists small full st1 st2,
    dev_cuts fs self_small st = (Returned (Some small), st1) /\
    dev_cuts fs self_full st = (Returned (Some full), st2) /\
    cut_list full = Some xs /\
    cut_list small = Some (take 1000 xs) /\
    take 1000 xs `prefix_of` xs /\
    length (take 1000 xs) = Nat.min 1000 (length xs).
Proof.
  intros Hsmall Hfull Hdir Hf Hne Hm1 Hm2.
  pose proof (lru_cache_miss DevCuts (dev_cuts_body fs (args self_small))
                (self_id self_small) st
                (keeps_caches_body DevCuts fs (args self_small)) Hm1) as Hr1.
  pose proof (lru_cache_miss DevCuts (dev_cuts_body fs (args self_full))
                (self_id self_full) st
                (keeps_caches_body DevCuts fs (args self_full)) Hm2) as Hr2.
  rewrite (dev_cuts_body_run fs (args self_small) st xs) in Hr1
    by (now rewrite Hdir).
  rewrite (dev_cuts_body_run fs (args self_full) st xs Hf) in Hr2.
  destruct xs as [|x xs]; [done|].
  cbn zeta in Hr1, Hr2. rewrite Hsmall in Hr1. rewrite Hfull in Hr2.
  destruct Hr1 as (st1 & Hrun1 & _). destruct Hr2 as (st2 & Hrun2 & _).
  eexists _, _, st1, st2.
  split; [exact Hrun1|]. split; [exact Hrun2|].
  split; [reflexivity|]. split; [reflexivity|].
  split; [|apply length_take].
  exists (drop 1000 (x :: xs)). symmetry. apply take_drop.
Qed.

Lemma dev_cuts_small_is_first_1000_witness :
  exists small full st1 st2,
    dev_cuts sample_fs
      {| self_id := 1; args := with_small_dev true default_args |} fresh_proc
    = (Returned (Some small), st1) /\
    dev_cuts sample_fs {| self_id := 1; args := default_args |} fresh_proc
    = (Returned (Some full), st2) /\
    cut_list full = Some (numbered_cuts 1002) /\
    cut_list small = Some (take 1000 (numbered_cuts 1002)) /\
    take 1000 (numbered_cuts 1002) `prefix_of` numbered_cuts 1002 /\
    length (take 1000 (numbered_cuts 1002))
    = Nat.min 1000 (length (numbered_cuts 1002)).
Proof.
  apply (dev_cuts_small_is_first_1000 sample_fs
           {| self_id := 1; args := with_small_dev true default_args |}
           {| self_id := 1; args := default_args |} fresh_proc
           (numbered_cuts 1002)).
  - reflexivity.
  - reflexivity.
  - reflexivity.
  - vm_compute. reflexivity.
  - discriminate.
  - reflexivity.
  - reflexivity.
Defined.

(** C3, as stated, fails on a dev manifest that holds no cut: with
    [--small-dev] unset [dev_cuts] returns [None], which is what
    [load_manifest_lazy] gives for such a file; with the flag set the call
    of [subset] on that [None] raises, so nothing is returned, and no
    prefix of the (empty) dev set comes back. *)
Lemma dev_cuts_small_raises_on_empty_manifest :
  dev_cuts empty_dev_fs
    {| self_id := 1; args := with_small_dev true default_args |} fresh_proc
  = (Raised (AttributeError "subset"), fresh_proc) /\
  (dev_cuts empty_dev_fs {| self_id := 1; args := default_args |}
     fresh_proc).1 = Returned None /\
  ~ exists small st1,
      dev_cuts empty_dev_fs
        {| self_id := 1; args := with_small_dev true default_args |}
        fresh_proc
      = (Returned small, st1).
Proof.
  assert (Hrun : dev_cuts empty_dev_fs
                   {| self_id := 1; args := with_small_dev true default_args |}
                   fresh_proc
                 = (Raised (AttributeError "subset"), fresh_proc))
    by (vm_compute; reflexivity).
  split; [exact Hrun|]. split; [vm_compute; reflexivity|].
  intros (small & st1 & Hret). rewrite Hrun in Hret. discriminate.
Qed.

(** On the sample dev manifest of 1002 cuts the small set has 1000 cuts,
    the last two being left out. *)
Example small_dev_drops_the_rest :
  length (take 1000 (numbered_cuts 1002)) = 1000%nat /\
  drop 1000 (numbered_cuts 1002) = [{| cut_id := "1000" |}; {| cut_id := "1001" |}].
Proof. vm_compute. split; reflexivity. Qed.

(** ** Memoization next to other instances

    The table of an accessor is shared by all instances and holds 128
    entries, so calls on other instances can push an entry out.  An entry
    survives as long as fewer than 128 other instances use the accessor. *)

Lemma lru_lookup_None key (cache : LruCache) :
  lru_lookup key cache = None <-> key ∉ cache.*1.
Proof.
  induction cache as [|[k r] cache IH]; cbn.
  - split; [intros _; apply not_elem_of_nil|done].
  - rewrite not_elem_of_cons. case_decide; subst.
    + split; [discriminate|]. intros [? _]. done.
    + rewrite IH. split; [intros ?; split; auto|intros [_ ?]; done].
Qed.

Lemma lru_lookup_fronted i v D cache :
  fronted i v D cache -> lru_lookup i cache = Some v.
Proof.
  intros (pre & post & -> & Hi & _). clear D.
  induction pre as [|[k r] pre IH]; cbn in *.
  - now rewrite decide_True.
  - apply not_elem_of_cons in Hi as [Hne Hi].
    rewrite decide_False by done. auto.
Qed.

Lemma fronted_head i v D post : fronted i v D ((i, v) :: post).
Proof.
  exists [], post. cbn.
  repeat split; [apply not_elem_of_nil | constructor | intros x Hx].
  now apply elem_of_nil in Hx.
Qed.

Lemma fronted_touch_other i v D k r cache :
  k <> i -> k ∈ D ->
  fronted i v D cache -> fronted i v D (lru_touch k r cache).
Proof.
  intros Hne HkD (pre & post & -> & Hi & Hnd & Hsub).
  exists ((k, r) :: lru_remove k pre), (lru_remove k post).
  assert (Hsl : (lru_remove k pre).*1 `sublist_of` pre.*1)
    by (apply fmap_sublist, sublist_filter).
  repeat split.
  - unfold lru_touch, lru_remove. rewrite filter_app, filter_cons_True; done.
  - cbn. rewrite not_elem_of_cons. split; [done|].
    intros Hin. apply Hi. eapply sublist_subseteq; eauto.
  - cbn. constructor.
    + rewrite list_elem_of_fmap. intros ([k' r'] & Hk & Hin).
      apply list_elem_of_filter in Hin as [Hk' _]. cbn in *. congruence.
    + eapply sublist_NoDup; eauto.
  - cbn. intros x Hx. apply elem_of_cons in Hx as [->|Hx]; [done|].
    apply Hsub. eapply sublist_subseteq; eauto.
Qed.

Lemma fronted_store_other i v D k r cache :
  k <> i -> k ∈ D -> (length D < maxsize)%nat ->
  lru_lookup k cache = None ->
  fronted i v D cache -> fronted i v D (lru_store k r cache).
Proof.
  intros Hne HkD Hsize Hmiss (pre & post & -> & Hi & Hnd & Hsub).
  unfold lru_store. rewrite Hmiss.
  apply lru_lookup_None in Hmiss.
  rewrite fmap_app, not_elem_of_app in Hmiss. destruct Hmiss as [Hkpre _].
  assert (Hnd' : NoDup (k :: pre.*1)) by (constructor; done).
  assert (Hlen : (S (length pre) <= length D)%nat).
  { rewrite <- (length_fmap fst pre). change (length (k :: pre.*1) <= length D)%nat.
    apply submseteq_length, NoDup_submseteq; [done|].
    intros x Hx. apply elem_of_cons in Hx as [->|Hx]; auto. }
  case_decide as Hfull.
  - destruct post as [|e post].
    { rewrite length_app in Hfull. cbn in Hfull. lia. }
    exists ((k, r) :: pre), (removelast (e :: post)).
    repeat split; cbn [fmap list_fmap fst]; auto.
    + change ((k, r) :: removelast (pre ++ [(i, v)] ++ e :: post)
              = (k, r) :: pre ++ [(i, v)] ++ removelast (e :: post)).
      rewrite !removelast_app by done. reflexivity.
    + rewrite not_elem_of_cons. done.
    + intros x Hx. apply elem_of_cons in Hx as [->|Hx]; auto.
  - exists ((k, r) :: pre), post.
    repeat split; cbn [fmap list_fmap fst]; auto.
    + rewrite not_elem_of_cons. done.
    + intros x Hx. apply elem_of_cons in Hx as [->|Hx]; auto.
Qed.

Lemma returned_is_fronted a fs self st result st' D :
  call_accessor a fs self st = (Returned result, st') ->
  fronted (self_id self) result D (cache_of a st').
Proof.
  rewrite call_accessor_unfold. unfold lru_cache. intros Hcall.
  destruct (lru_lookup (self_id self) (cache_of a st)) as [r|] eqn:Hl.
  - inversion Hcall; subst. rewrite cache_of_set_cache. apply fronted_head.
  - pose proof (keeps_caches_body a fs (args self) st a) as Hk.
    destruct (body_of a fs (args self) st) as [[r|e] st1]; [|discriminate].
    inversion Hcall; subst. rewrite cache_of_set_cache. cbn in Hk.
    unfold lru_store. rewrite Hk, Hl.
    case_decide; apply fronted_head.
Qed.

Lemma call_keeps_fronted i v D a c st :
  (length D < maxsize)%nat ->
  fronted i v D (cache_of a st) ->
  (call_which c = a -> self_id (call_self c) <> i ->
   self_id (call_self c) ∈ D) ->
  fronted i v D
    (cache_of a (call_accessor (call_which c) (call_fs c) (call_self c) st).2)
  /\ (call_which c = a -> self_id (call_self c) = i ->
      (call_accessor (call_which c) (call_fs c) (call_self c) st).1
      = Returned v).
Proof.
  intros Hsize Hfr HD. destruct c as [a' self fs]. cbn in *.
  rewrite call_accessor_unfold. unfold lru_cache.
  pose proof (keeps_caches_body a' fs (args self) st) as Hk.
  destruct (decide (a' = a)) as [->|Hne].
  - destruct (decide (self_id self = i)) as [Hid|Hid].
    + rewrite Hid, (lru_lookup_fronted _ _ _ _ Hfr). cbn.
      rewrite cache_of_set_cache. split; [apply fronted_head|done].
    + split; [|done]. specialize (HD eq_refl Hid).
      destruct (lru_lookup (self_id self) (cache_of a st)) as [r|] eqn:Hl; cbn.
      * rewrite cache_of_set_cache. now apply fronted_touch_other.
      * specialize (Hk a).
        destruct (body_of a fs (args self) st) as [[r|e] st1]; cbn in *.
        -- rewrite cache_of_set_cache, Hk.
           now apply fronted_store_other.
        -- now rewrite Hk.
  - split; [|done].
    destruct (lru_lookup (self_id self) (cache_of a' st)); cbn.
    + now rewrite cache_of_set_cache_ne.
    + specialize (Hk a).
      destruct (body_of a' fs (args self) st) as [[r|e] st1]; cbn in *.
      * rewrite cache_of_set_cache_ne by done. now rewrite Hk.
      * now rewrite Hk.
Qed.

Lemma fronted_then_returned i a v D calls :
  (length D < maxsize)%nat ->
  Forall (fun c => call_which c = a -> self_id (call_self c) <> i ->
                   self_id (call_self c) ∈ D) calls ->
  forall st k ck,
    fronted i v D (cache_of a st) ->
    calls !! k = Some ck ->
    call_which ck = a -> self_id (call_self ck) = i ->
    (run_calls calls st).1 !! k = Some (Returned v).
Proof.
  intros Hsize. induction 1 as [|c calls Hc Hcalls IH];
    intros st k ck Hfr Hk Ha Hi.
  - discriminate.
  - rewrite run_calls_cons. cbn [fst].
    destruct (call_keeps_fronted i v D a c st Hsize Hfr Hc) as [Hfr' Hret].
    destruct k as [|k]; cbn in *.
    + assert (ck = c) as -> by congruence. now rewrite Hret.
    + now apply (IH _ _ ck).
Qed.

(** C4 (amended).  In any sequence of calls of [train_cuts], [dev_cuts] and
    [test_cuts] within a process, from any state, a call on instance [i]
    that follows a returned call of the same accessor on [i] returns the
    very same value (the same object, or [None] again), provided the other
    instances that use this accessor are fewer than 128 (they are the
    members of [D]); the namespace of the instance and the files may have
    changed in between. *)
Lemma memoized_among_other_instances
    (i : nat) (a : Accessor) (D : list nat) (calls : list Call) (st : Proc)
    (j k : nat) (cj ck : Call) (result : option CutSet) :
  (length D < maxsize)%nat ->
  Forall (fun c => call_which c = a -> self_id (call_self c) <> i ->
                   self_id (call_self c) ∈ D) calls ->
  (j < k)%nat ->
  calls !! j = Some cj -> call_which cj = a -> self_id (call_self cj) = i ->
  calls !! k = Some ck -> call_which ck = a -> self_id (call_self ck) = i ->
  (run_calls calls st).1 !! j = Some (Returned result) ->
  (run_calls calls st).1 !! k = Some (Returned result).
Proof.
  intros Hsize Hall. revert st j k.
  induction Hall as [|c calls Hc Hcalls IH];
    intros st j k Hjk Hj Haj Hij Hk Hak Hik Hret.
  - discriminate.
  - rewrite run_calls_cons in Hret |- *. cbn [fst] in *.
    destruct k as [|k]; [lia|]. destruct j as [|j]; cbn in *.
    + assert (cj = c) as -> by congruence.
      apply (fronted_then_returned i a result D calls Hsize Hcalls _ k ck);
        auto.
      rewrite <- Hij, <- Haj.
      apply (returned_is_fronted _ (call_fs c) _ st).
      destruct (call_accessor _ _ _ st) as [o st1]. cbn in *. congruence.
    + apply (IH _ j k); auto with lia.
Qed.

(** The bound is sharp.  Between two calls of [test_cuts] on instance 0, 127
    other instances leave its entry in the table, and the second call
    returns the object of the first; 128 other instances push the entry
    out, and the second call loads the manifest again, into a new object. *)
Example entry_kept_by_127_other_instances :
  let outs :=
    (run_calls (test_call 0 :: (test_call <$> seq 1 127) ++ [test_call 0])
       fresh_proc).1 in
  oid_at outs 0 = Some 0%nat /\ oid_at outs 128 = Some 0%nat.
Proof. vm_compute. split; reflexivity. Qed.

Example entry_evicted_by_128_other_instances :
  let outs :=
    (run_calls (test_call 0 :: (test_call <$> seq 1 128) ++ [test_call 0])
       fresh_proc).1 in
  oid_at outs 0 = Some 0%nat /\ oid_at outs 129 = Some 129%nat.
Proof. vm_compute. split; reflexivity. Qed.

(** C4, as stated, fails in a process that has more than 128 instances.
    In the sequence below the first and the last call are [test_cuts] on
    instance 0, over the same files and namespace; in between, instances 1
    to 128 call [test_cuts] once each.  Both calls on instance 0 return a
    cut set, but not the same one: the last call has loaded the manifest
    again into a new object. *)
Lemma second_call_returns_new_object_after_128_instances :
  let calls := test_call 0 :: (test_call <$> seq 1 128) ++ [test_call 0] in
  let outs := (run_calls calls fresh_proc).1 in
  calls !! 0%nat = Some (test_call 0) /\
  calls !! 129%nat = Some (test_call 0) /\
  outs !! 0%nat =
    Some (Returned
            (Some (LazyManifest 0
                     ["data"; "fbank"; "gigaspeech_cuts_TEST_future.jsonl.gz"]
                     (numbered_cuts 2)))) /\
  outs !! 129%nat =
    Some (Returned
            (Some (LazyManifest 129
                     ["data"; "fbank"; "gigaspeech_cuts_TEST_future.jsonl.gz"]
                     (numbered_cuts 2)))) /\
  outs !! 0%nat <> outs !! 129%nat.
Proof.
  vm_compute. repeat split. discriminate.
Qed.

(** ** Further properties of the loaders *)

(** X1.  With augmentation enabled and a Lhotse whose
    [DiscretizedInputAugment.__init__] has no parameter [num_frame_masks],
    [train_dataloaders] raises [KeyError] on that name, whatever the cuts,
    the sampler state dict and the other options are: the lookup comes
    before any transform, dataset, sampler or loader is constructed. *)
Theorem missing_num_frame_masks_raises_KeyError
    (lhotse : Lhotse) (args : Namespace) (cuts : CutSet)
    (sampler_state_dict : option StateDict) :
  enable_spec_aug args = true ->
  DiscretizedInputAugment_init lhotse !! "num_frame_masks" = None ->
  train_dataloaders lhotse args cuts sampler_state_dict
  = Raised (KeyError "num_frame_masks").
Proof.
  intros Hon Hsig. unfold train_dataloaders, getitem.
  now rewrite Hon, Hsig.
Qed.

Lemma missing_num_frame_masks_raises_KeyError_witness :
  train_dataloaders lhotse_without_parameter
    (with_bucketing_sampler false default_args) some_cuts
    (Some {["epoch" := PyInt 3]})
  = Raised (KeyError "num_frame_masks").
Proof.
  apply missing_num_frame_masks_raises_KeyError; reflexivity.
Defined.

(** X2.  A sampler state dict changes the training loader in one way only:
    the loader is the one built without a state dict, with
    [load_state_dict] called on its sampler. *)
Theorem sampler_state_dict_only_loads
    (lhotse : Lhotse) (args : Namespace) (cuts : CutSet) (sd : StateDict) :
  train_dataloaders lhotse args cuts (Some sd) =
  outcome_map (with_sampler (load_state_dict sd))
    (train_dataloaders lhotse args cuts None).
Proof.
  unfold train_dataloaders, getitem.
  destruct (enable_spec_aug args);
    [destruct (DiscretizedInputAugment_init lhotse !! "num_frame_masks")|];
    cbn; try reflexivity;
    destruct (bucketing_sampler args); reflexivity.
Qed.

(** X3.  [--return-cuts], [--enable-gaussian-noise] and [--input-strategy]
    are declared but read by no method: the three loaders and the three
    accessor bodies are the same for any values of them. *)
Theorem unread_flags_change_nothing
    (lhotse : Lhotse) (args : Namespace) (cuts : CutSet)
    (sampler_state_dict : option StateDict) (fs : FileSystem) (st : Proc)
    (rc gn : bool) (strategy : string) :
  let args' := with_unread_flags rc gn strategy args in
  train_dataloaders lhotse args' cuts sampler_state_dict =
    train_dataloaders lhotse args cuts sampler_state_dict /\
  valid_dataloaders args' cuts = valid_dataloaders args cuts /\
  test_dataloaders args' cuts = test_dataloaders args cuts /\
  train_cuts_body fs args' st = train_cuts_body fs args st /\
  dev_cuts_body fs args' st = dev_cuts_body fs args st /\
  test_cuts_body fs args' st = test_cuts_body fs args st.
Proof. cbn. repeat split. Qed.

(** X4.  The validation loader depends on the configuration through
    [--max-duration] alone, the test loader through [--max-duration] and
    [--num-workers] alone: [--shuffle], [--num-buckets], [--drop-last],
    [--bucketing-sampler] and the augmentation options do not reach them. *)
Theorem eval_loaders_read_two_options (a a' : Namespace) (cuts : CutSet) :
  max_duration a = max_duration a' ->
  valid_dataloaders a cuts = valid_dataloaders a' cuts /\
  (num_workers a = num_workers a' ->
   test_dataloaders a cuts = test_dataloaders a' cuts).
Proof.
  intros Hd. unfold valid_dataloaders, test_dataloaders. rewrite Hd.
  split; [reflexivity|]. now intros ->.
Qed.

Lemma eval_loaders_read_two_options_witness :
  valid_dataloaders default_args some_cuts =
    valid_dataloaders
      {| manifest_dir := ["elsewhere"]; max_duration := 1000;
         bucketing_sampler := false; num_buckets := 7; shuffle := false;
         drop_last := false; return_cuts := false; num_workers := 2;
         enable_spec_aug := false; spec_aug_time_warp_factor := 0;
         enable_gaussian_noise := false; input_strategy := "";
         subset := "XL"; small_dev := true |} some_cuts /\
  test_dataloaders default_args some_cuts =
    test_dataloaders
      {| manifest_dir := ["elsewhere"]; max_duration := 1000;
         bucketing_sampler := false; num_buckets := 7; shuffle := false;
         drop_last := false; return_cuts := false; num_workers := 2;
         enable_spec_aug := false; spec_aug_time_warp_factor := 0;
         enable_gaussian_noise := false; input_strategy := "";
         subset := "XL"; small_dev := true |} some_cuts.
Proof.
  destruct (eval_loaders_read_two_options default_args
              {| manifest_dir := ["elsewhere"]; max_duration := 1000;
                 bucketing_sampler := false; num_buckets := 7;
                 shuffle := false; drop_last := false; return_cuts := false;
                 num_workers := 2; enable_spec_aug := false;
                 spec_aug_time_warp_factor := 0;
                 enable_gaussian_noise := false; input_strategy := "";
                 subset := "XL"; small_dev := true |} some_cuts eq_refl)
    as [Hv Ht].
  split; [exact Hv | exact (Ht eq_refl)].
Defined.

(** X5.  Two workers of one loader never get the same seed: the seeds set by
    an initializer for different worker ids differ, whatever the generators
    held before. *)
Theorem worker_seeds_are_distinct
    (self : _SeedWorkers) (w w' : Z) (rng rng' : Rng) :
  w <> w' ->
  rng_seed (_SeedWorkers_call self w rng)
  <> rng_seed (_SeedWorkers_call self w' rng').
Proof. intros Hw. cbn. lia. Qed.

Lemma worker_seeds_are_distinct_witness :
  rng_seed (_SeedWorkers_call {| seed := 42 |} 0
              {| rng_seed := 9; rng_draws := 1 |})
  <> rng_seed (_SeedWorkers_call {| seed := 42 |} 1
                 {| rng_seed := 9; rng_draws := 1 |}).
Proof.
  apply worker_seeds_are_distinct. discriminate.
Defined.

(** ** Further properties of the accessors *)

Lemma load_manifest_lazy_missing fs path st :
  fs path = None ->
  load_manifest_lazy fs path st = (Raised (FileNotFoundError path), st).
Proof. intros Hf. unfold load_manifest_lazy. now rewrite Hf. Qed.

(** A miss runs the function and stores what it returns. *)
Lemma lru_cache_miss_run a body key st :
  lru_lookup key (cache_of a st) = None ->
  lru_cache a body key st =
    match body st with
    | (Returned result, st1) =>
        (Returned result,
         set_cache a (lru_store key result (cache_of a st1)) st1)
    | (Raised e, st1) => (Raised e, st1)
    end.
Proof. intros Hmiss. unfold lru_cache. now rewrite Hmiss. Qed.

Lemma load_manifest_lazy_notgzip fs path st :
  fs path = Some NotGzip ->
  load_manifest_lazy fs path st = (Raised BadGzipFile, st).
Proof. intros Hf. unfold load_manifest_lazy. now rewrite Hf. Qed.

(** Runs the outermost [load_manifest_lazy] of the goal, by cases on the
    file. *)
Ltac load_with H :=
  first [ rewrite (load_manifest_lazy_found _ _ _ _ H)
        | rewrite (load_manifest_lazy_missing _ _ _ H)
        | rewrite (load_manifest_lazy_notgzip _ _ _ H) ].

Ltac load_case :=
  match goal with
  | |- context [load_manifest_lazy ?fs ?p ?st] =>
      let H := fresh "Hfile" in
      destruct (fs p) as [[?|]|] eqn:H; load_with H
  end.

(** The body of [train_cuts] for "M" and "XL": the manifests are loaded in
    order and the first one that is missing or is not gzip data stops the
    call. *)
Lemma train_cuts_body_run fs args st sel w n0 n1 n2 :
  subset args = sel ->
  (sel = "M" /\ w = 909401 /\
   n0 = "gigaspeech_cuts_M_future.jsonl.gz" /\
   n1 = "gigaspeech_cuts_M-sp0_9_future.jsonl.gz" /\
   n2 = "gigaspeech_cuts_M-sp1_1_future.jsonl.gz") \/
  (sel = "XL" /\ w = 8277188 /\
   n0 = "gigaspeech_cuts_XL.jsonl.gz" /\
   n1 = "gigaspeech_cuts_XL-sp0_9.jsonl.gz" /\
   n2 = "gigaspeech_cuts_XL-sp1_1.jsonl.gz") ->
  train_cuts_body fs args st =
    match fs (path_div (manifest_dir args) n0) with
    | None =>
        (Raised (FileNotFoundError (path_div (manifest_dir args) n0)), st)
    | Some NotGzip => (Raised BadGzipFile, st)
    | Some (Manifest xs) =>
        match fs (path_div (manifest_dir args) n1) with
        | None =>
            (Raised (FileNotFoundError (path_div (manifest_dir args) n1)),
             advance_oid (created xs) st)
        | Some NotGzip => (Raised BadGzipFile, advance_oid (created xs) st)
        | Some (Manifest ys) =>
            match fs (path_div (manifest_dir args) n2) with
            | None =>
                (Raised (FileNotFoundError (path_div (manifest_dir args) n2)),
                 advance_oid (created xs + created ys) st)
            | Some NotGzip =>
                (Raised BadGzipFile, advance_oid (created xs + created ys) st)
            | Some (Manifest zs) =>
                (Returned (Some (train_mix args st n0 n1 n2 xs ys zs w)),
                 advance_oid (created xs + created ys + created zs + 1) st)
            end
        end
    end.
Proof.
  intros Hsel Hcase. unfold train_cuts_body, train_mix.
  destruct Hcase as [(-> & -> & -> & -> & ->) | (-> & -> & -> & -> & ->)];
    rewrite Hsel; cbn [decide];
    repeat (case_decide; try discriminate; try congruence);
    unfold mbind, M_bind;
    repeat load_case;
    rewrite ?CutSet_mux_run, ?advance_oid_twice; cbn [next_oid advance_oid];
    rewrite ?Nat.add_assoc; reflexivity.
Qed.

Lemma dev_cuts_body_missing fs args st :
  fs (path_div (manifest_dir args) "gigaspeech_cuts_DEV_future.jsonl.gz")
  = None ->
  dev_cuts_body fs args st =
    (Raised (FileNotFoundError
               (path_div (manifest_dir args)
                  "gigaspeech_cuts_DEV_future.jsonl.gz")), st).
Proof.
  intros Hf. unfold dev_cuts_body, mbind, M_bind.
  now rewrite (load_manifest_lazy_missing _ _ _ Hf).
Qed.

Lemma dev_cuts_body_notgzip fs args st :
  fs (path_div (manifest_dir args) "gigaspeech_cuts_DEV_future.jsonl.gz")
  = Some NotGzip ->
  dev_cuts_body fs args st = (Raised BadGzipFile, st).
Proof.
  intros Hf. unfold dev_cuts_body, mbind, M_bind.
  now rewrite (load_manifest_lazy_notgzip _ _ _ Hf).
Qed.

Lemma test_cuts_body_run fs args st :
  test_cuts_body fs args st =
    let path := path_div (manifest_dir args)
                  "gigaspeech_cuts_TEST_future.jsonl.gz" in
    match fs path with
    | Some (Manifest xs) =>
        (Returned (loaded (next_oid st) path xs), advance_oid (created xs) st)
    | Some NotGzip => (Raised BadGzipFile, st)
    | None => (Raised (FileNotFoundError path), st)
    end.
Proof.
  unfold test_cuts_body. cbn zeta. load_case; reflexivity.
Qed.

(** A cut set returned by a body is an object created during the call. *)
Lemma body_returned_fresh a fs args st cs st' :
  body_of a fs args st = (Returned (Some cs), st') ->
  (next_oid st <= id_of cs < next_oid st')%nat.
Proof.
  destruct a; cbn.
  - destruct (decide (subset args = "M")) as [HM|HM];
      [|destruct (decide (subset args = "XL")) as [HXL|HXL]].
    + rewrite (train_cuts_body_run fs args st "M" 909401 _ _ _ HM)
        by (left; repeat split; reflexivity).
      repeat match goal with
             | |- context [match fs ?p with _ => _ end] =>
                 destruct (fs p) as [[?|]|] eqn:?
             end; intros H; inversion H; subst; cbn; lia.
    + rewrite (train_cuts_body_run fs args st "XL" 8277188 _ _ _ HXL)
        by (right; repeat split; reflexivity).
      repeat match goal with
             | |- context [match fs ?p with _ => _ end] =>
                 destruct (fs p) as [[?|]|] eqn:?
             end; intros H; inversion H; subst; cbn; lia.
    + unfold train_cuts_body. rewrite !decide_False by done. discriminate.
  - destruct (fs (path_div (manifest_dir args)
                    "gigaspeech_cuts_DEV_future.jsonl.gz"))
      as [[xs|]|] eqn:Hf.
    + rewrite (dev_cuts_body_run fs args st xs Hf).
      destruct xs as [|x xs]; cbn zeta;
        destruct (small_dev args); intros H; inversion H; subst; cbn; lia.
    + rewrite (dev_cuts_body_notgzip fs args st Hf). discriminate.
    + rewrite (dev_cuts_body_missing fs args st Hf). discriminate.
  - rewrite test_cuts_body_run. cbn zeta.
    destruct (fs _) as [[[|x xs]|]|] eqn:Hf;
      intros H; inversion H; subst; cbn; lia.
Qed.

(** A call that raised was a miss and left the three tables as they were. *)
Lemma raised_was_miss a fs self st e st' :
  call_accessor a fs self st = (Raised e, st') ->
  lru_lookup (self_id self) (cache_of a st) = None /\
  body_of a fs (args self) st = (Raised e, st') /\
  forall a', cache_of a' st' = cache_of a' st.
Proof.
  rewrite call_accessor_unfold. unfold lru_cache.
  destruct (lru_lookup (self_id self) (cache_of a st)); [discriminate|].
  pose proof (keeps_caches_body a fs (args self) st) as Hk.
  destruct (body_of a fs (args self) st) as [[r|e1] st1]; [discriminate|].
  intros H; inversion H; subst. auto.
Qed.

(** X6.  What the accessor bodies read of the configuration: the manifest
    directory, and besides it only [--subset] ([train_cuts]) or
    [--small-dev] ([dev_cuts]); [test_cuts] reads the directory alone. *)
Theorem accessor_bodies_read_three_options
    (fs : FileSystem) (a a' : Namespace) (st : Proc) :
  manifest_dir a = manifest_dir a' ->
  (subset a = subset a' ->
   train_cuts_body fs a st = train_cuts_body fs a' st) /\
  (small_dev a = small_dev a' ->
   dev_cuts_body fs a st = dev_cuts_body fs a' st) /\
  test_cuts_body fs a st = test_cuts_body fs a' st.
Proof.
  intros Hd. unfold train_cuts_body, dev_cuts_body, test_cuts_body.
  rewrite Hd. repeat split.
  - intros Hs. rewrite Hs. reflexivity.
  - intros Hs. rewrite Hs. reflexivity.
Qed.

Lemma accessor_bodies_read_three_options_witness :
  train_cuts_body sample_fs default_args fresh_proc =
    train_cuts_body sample_fs
      (with_small_dev true (with_bucketing_sampler false default_args))
      fresh_proc /\
  dev_cuts_body sample_fs default_args fresh_proc =
    dev_cuts_body sample_fs
      (with_subset "XL" (with_bucketing_sampler false default_args))
      fresh_proc.
Proof.
  split.
  - exact (proj1 (accessor_bodies_read_three_options sample_fs default_args
                    (with_small_dev true
                       (with_bucketing_sampler false default_args))
                    fresh_proc eq_refl) eq_refl).
  - exact (proj1 (proj2 (accessor_bodies_read_three_options sample_fs
                           default_args
                           (with_subset "XL"
                              (with_bucketing_sampler false default_args))
                           fresh_proc eq_refl)) eq_refl).
Defined.

(** X7.  When an accessor raises, whatever the exception, the call was a
    miss and none of the three tables has changed: a failure is not
    stored, and the entries of the other instances stay where they were. *)
Theorem raised_call_stores_nothing
    (a : Accessor) (fs : FileSystem) (self : DataModule) (st st' : Proc)
    (e : Exn) :
  call_accessor a fs self st = (Raised e, st') ->
  lru_lookup (self_id self) (cache_of a st) = None /\
  forall a', cache_of a' st' = cache_of a' st.
Proof.
  intros Hcall.
  destruct (raised_was_miss _ _ _ _ _ _ Hcall) as (Hmiss & _ & Hk).
  split; [exact Hmiss | exact Hk].
Qed.

Lemma raised_call_stores_nothing_witness :
  lru_lookup 0%nat
    (cache_of TrainCuts
       (call_accessor TestCuts sample_fs
          {| self_id := 9; args := default_args |} fresh_proc).2) = None /\
  forall a',
    cache_of a'
      (call_accessor TrainCuts
         (fs_of_list
            [ (["data"; "fbank"; "gigaspeech_cuts_M_future.jsonl.gz"],
               Manifest (numbered_cuts 3)) ])
         {| self_id := 0; args := default_args |}
         (call_accessor TestCuts sample_fs
            {| self_id := 9; args := default_args |} fresh_proc).2).2
    = cache_of a'
        (call_accessor TestCuts sample_fs
           {| self_id := 9; args := default_args |} fresh_proc).2.
Proof.
  apply (raised_call_stores_nothing TrainCuts
           (fs_of_list
              [ (["data"; "fbank"; "gigaspeech_cuts_M_future.jsonl.gz"],
                 Manifest (numbered_cuts 3)) ])
           {| self_id := 0; args := default_args |} _ _
           (FileNotFoundError
              ["data"; "fbank"; "gigaspeech_cuts_M-sp0_9_future.jsonl.gz"])).
  vm_compute. reflexivity.
Defined.

(** X8.  On a first call for subset "M" or "XL", [train_cuts] loads the
    unperturbed, the 0.9 and the 1.1 manifest in this order: it raises
    [FileNotFoundError] for the first of them that is missing (or
    [BadGzipFile] if that file is there but is not gzip data), and returns
    the multiplexer only when all three have been loaded. *)
Theorem train_cuts_first_missing_manifest
    (fs : FileSystem) (self : DataModule) (st : Proc)
    (sel : string) (w : Z) (n0 n1 n2 : string) :
  subset (args self) = sel ->
  (sel = "M" /\ w = 909401 /\
   n0 = "gigaspeech_cuts_M_future.jsonl.gz" /\
   n1 = "gigaspeech_cuts_M-sp0_9_future.jsonl.gz" /\
   n2 = "gigaspeech_cuts_M-sp1_1_future.jsonl.gz") \/
  (sel = "XL" /\ w = 8277188 /\
   n0 = "gigaspeech_cuts_XL.jsonl.gz" /\
   n1 = "gigaspeech_cuts_XL-sp0_9.jsonl.gz" /\
   n2 = "gigaspeech_cuts_XL-sp1_1.jsonl.gz") ->
  lru_lookup (self_id self) (train_cuts_cache st) = None ->
  (train_cuts fs self st).1 =
    match fs (path_div (manifest_dir (args self)) n0) with
    | None =>
        Raised (FileNotFoundError (path_div (manifest_dir (args self)) n0))
    | Some NotGzip => Raised BadGzipFile
    | Some (Manifest xs) =>
        match fs (path_div (manifest_dir (args self)) n1) with
        | None =>
            Raised (FileNotFoundError
                      (path_div (manifest_dir (args self)) n1))
        | Some NotGzip => Raised BadGzipFile
        | Some (Manifest ys) =>
            match fs (path_div (manifest_dir (args self)) n2) with
            | None =>
                Raised (FileNotFoundError
                          (path_div (manifest_dir (args self)) n2))
            | Some NotGzip => Raised BadGzipFile
            | Some (Manifest zs) =>
                Returned
                  (Some (train_mix (args self) st n0 n1 n2 xs ys zs w))
            end
        end
    end.
Proof.
  intros Hsel Hcase Hmiss. unfold train_cuts.
  rewrite (lru_cache_miss_run TrainCuts _ _ _ Hmiss).
  rewrite (train_cuts_body_run fs (args self) st sel w n0 n1 n2 Hsel Hcase).
  repeat match goal with
         | |- context [match fs ?p with _ => _ end] =>
             destruct (fs p) as [[?|]|]
         end; reflexivity.
Qed.

Lemma train_cuts_first_missing_manifest_witness :
  (train_cuts
     (fs_of_list
        [ (["data"; "fbank"; "gigaspeech_cuts_XL.jsonl.gz"],
           Manifest (numbered_cuts 2));
          (["data"; "fbank"; "gigaspeech_cuts_XL-sp1_1.jsonl.gz"],
           Manifest (numbered_cuts 2)) ])
     {| self_id := 1; args := with_subset "XL" default_args |} fresh_proc).1
  = Raised (FileNotFoundError
              ["data"; "fbank"; "gigaspeech_cuts_XL-sp0_9.jsonl.gz"]).
Proof.
  exact (train_cuts_first_missing_manifest
           (fs_of_list
              [ (["data"; "fbank"; "gigaspeech_cuts_XL.jsonl.gz"],
                 Manifest (numbered_cuts 2));
                (["data"; "fbank"; "gigaspeech_cuts_XL-sp1_1.jsonl.gz"],
                 Manifest (numbered_cuts 2)) ])
           {| self_id := 1; args := with_subset "XL" default_args |}
           fresh_proc "XL" 8277188
           "gigaspeech_cuts_XL.jsonl.gz"
           "gigaspeech_cuts_XL-sp0_9.jsonl.gz"
           "gigaspeech_cuts_XL-sp1_1.jsonl.gz"
           eq_refl
           (or_intror (conj eq_refl (conj eq_refl
              (conj eq_refl (conj eq_refl eq_refl)))))
           eq_refl).
Defined.

(** X9.  The first call of [test_cuts] on an instance, by what is at
    [gigaspeech_cuts_TEST_future.jsonl.gz]: a manifest with cuts gives one
    new object holding them, stored under the instance; a manifest without
    cuts gives [None], stored as well, and no object; a missing file
    raises [FileNotFoundError] for the path and a file that is not gzip
    data raises [BadGzipFile], both leaving the process unchanged. *)
Theorem test_cuts_first_call
    (fs : FileSystem) (self : DataModule) (st : Proc) :
  lru_lookup (self_id self) (test_cuts_cache st) = None ->
  test_cuts fs self st =
    let path := path_div (manifest_dir (args self))
                  "gigaspeech_cuts_TEST_future.jsonl.gz" in
    match fs path with
    | Some (Manifest []) =>
        (Returned None,
         set_cache TestCuts
           (lru_store (self_id self) None (test_cuts_cache st)) st)
    | Some (Manifest ((_ :: _) as xs)) =>
        let cuts := LazyManifest (next_oid st) path xs in
        (Returned (Some cuts),
         set_cache TestCuts
           (lru_store (self_id self) (Some cuts) (test_cuts_cache st))
           (advance_oid 1 st))
    | Some NotGzip => (Raised BadGzipFile, st)
    | None => (Raised (FileNotFoundError path), st)
    end.
Proof.
  intros Hmiss. unfold test_cuts.
  rewrite (lru_cache_miss_run TestCuts _ _ _ Hmiss), test_cuts_body_run.
  cbn zeta. destruct (fs _) as [[[|x xs]|]|]; cbn [loaded created].
  - now rewrite advance_oid_0.
  - reflexivity.
  - reflexivity.
  - reflexivity.
Qed.

Lemma test_cuts_first_call_witness :
  test_cuts
    (fs_of_list
       [ (["data"; "fbank"; "gigaspeech_cuts_TEST_future.jsonl.gz"],
          Manifest []) ])
    {| self_id := 4; args := default_args |} fresh_proc =
    (Returned None,
     {| next_oid := 0; train_cuts_cache := []; dev_cuts_cache := [];
        test_cuts_cache := [ (4%nat, None) ] |}).
Proof.
  exact (test_cuts_first_call
           (fs_of_list
              [ (["data"; "fbank"; "gigaspeech_cuts_TEST_future.jsonl.gz"],
                 Manifest []) ])
           {| self_id := 4; args := default_args |} fresh_proc eq_refl).
Defined.

(** The same call over the sample files, where the manifest holds cuts. *)
Example test_cuts_first_call_with_cuts :
  test_cuts sample_fs {| self_id := 4; args := default_args |} fresh_proc =
    (Returned
       (Some (LazyManifest 0
                ["data"; "fbank"; "gigaspeech_cuts_TEST_future.jsonl.gz"]
                (numbered_cuts 2))),
     {| next_oid := 1; train_cuts_cache := []; dev_cuts_cache := [];
        test_cuts_cache :=
          [ (4%nat,
             Some (LazyManifest 0
                     ["data"; "fbank"; "gigaspeech_cuts_TEST_future.jsonl.gz"]
                     (numbered_cuts 2))) ] |}).
Proof. vm_compute. reflexivity. Qed.

(** X10.  When the dev manifest file does not exist, the first call of
    [dev_cuts] raises [FileNotFoundError] for
    [gigaspeech_cuts_DEV_future.jsonl.gz], with [--small-dev] set or not,
    and leaves the process unchanged: the fault comes before any subset is
    taken. *)
Theorem dev_cuts_missing_manifest
    (fs : FileSystem) (self : DataModule) (st : Proc) :
  lru_lookup (self_id self) (dev_cuts_cache st) = None ->
  fs (path_div (manifest_dir (args self))
        "gigaspeech_cuts_DEV_future.jsonl.gz") = None ->
  dev_cuts fs self st =
    (Raised (FileNotFoundError
               (path_div (manifest_dir (args self))
                  "gigaspeech_cuts_DEV_future.jsonl.gz")), st).
Proof.
  intros Hmiss Hf. unfold dev_cuts.
  rewrite (lru_cache_miss_run DevCuts _ _ _ Hmiss).
  now rewrite (dev_cuts_body_missing fs (args self) st Hf).
Qed.

Lemma dev_cuts_missing_manifest_witness :
  dev_cuts no_files
    {| self_id := 2; args := with_small_dev true default_args |} fresh_proc
  = (Raised (FileNotFoundError
               ["data"; "fbank"; "gigaspeech_cuts_DEV_future.jsonl.gz"]),
     fresh_proc).
Proof.
  exact (dev_cuts_missing_manifest no_files
           {| self_id := 2; args := with_small_dev true default_args |}
           fresh_proc eq_refl eq_refl).
Defined.

Lemma lru_lookup_removelast key (cache : LruCache) :
  lru_lookup key cache = None -> lru_lookup key (removelast cache) = None.
Proof.
  rewrite !lru_lookup_None. intros Hk Hin. apply Hk.
  rewrite removelast_firstn_len in Hin.
  eapply sublist_subseteq; [|exact Hin].
  apply fmap_sublist, sublist_take.
Qed.

Lemma lru_lookup_store_ne key key' result (cache : LruCache) :
  key <> key' ->
  lru_lookup key' cache = None ->
  lru_lookup key' (lru_store key result cache) = None.
Proof.
  intros Hne Hmiss. unfold lru_store.
  destruct (lru_lookup key cache); [exact Hmiss|].
  case_decide; cbn; rewrite decide_False by done;
    [now apply lru_lookup_removelast | exact Hmiss].
Qed.

(** X11.  The memo is per instance: when two different instances make their
    first call of the same accessor one after the other and both get a cut
    set, the second gets an object created after the first one's, never
    the same object. *)
Theorem instances_do_not_share_cuts
    (a : Accessor) (fs1 fs2 : FileSystem) (self1 self2 : DataModule)
    (st st1 st2 : Proc) (cs1 cs2 : CutSet) :
  self_id self1 <> self_id self2 ->
  lru_lookup (self_id self1) (cache_of a st) = None ->
  lru_lookup (self_id self2) (cache_of a st) = None ->
  call_accessor a fs1 self1 st = (Returned (Some cs1), st1) ->
  call_accessor a fs2 self2 st1 = (Returned (Some cs2), st2) ->
  (id_of cs1 < id_of cs2)%nat.
Proof.
  intros Hne Hm1 Hm2. rewrite !call_accessor_unfold.
  rewrite (lru_cache_miss_run a _ _ _ Hm1).
  pose proof (keeps_caches_body a fs1 (args self1) st a) as Hk.
  destruct (body_of a fs1 (args self1) st) as [[r1|e1] sta] eqn:Hb1;
    [|discriminate].
  intros H1. inversion H1; subst r1 st1. clear H1. cbn in Hk.
  apply body_returned_fresh in Hb1.
  rewrite lru_cache_miss_run.
  2:{ rewrite cache_of_set_cache, Hk. now apply lru_lookup_store_ne. }
  destruct (body_of a fs2 (args self2) _) as [[r2|e2] stb] eqn:Hb2;
    [|discriminate].
  intros H2. inversion H2; subst r2 st2. clear H2.
  apply body_returned_fresh in Hb2.
  rewrite next_oid_set_cache in Hb2. lia.
Qed.

Lemma instances_do_not_share_cuts_witness :
  (id_of (LazyManifest 0
            ["data"; "fbank"; "gigaspeech_cuts_TEST_future.jsonl.gz"]
            (numbered_cuts 2))
   < id_of (LazyManifest 1
              ["data"; "fbank"; "gigaspeech_cuts_TEST_future.jsonl.gz"]
              (numbered_cuts 2)))%nat.
Proof.
  apply (instances_do_not_share_cuts TestCuts sample_fs sample_fs
           {| self_id := 1; args := default_args |}
           {| self_id := 2; args := default_args |}
           fresh_proc
           (test_cuts sample_fs {| self_id := 1; args := default_args |}
              fresh_proc).2
           (test_cuts sample_fs {| self_id := 2; args := default_args |}
              (test_cuts sample_fs {| self_id := 1; args := default_args |}
                 fresh_proc).2).2).
  - discriminate.
  - reflexivity.
  - reflexivity.
  - vm_compute. reflexivity.
  - vm_compute. reflexivity.
Defined.

(** X12.  A failure is not memoized: after a call that raised, the next
    call of that accessor on the instance runs the body again, so it
    succeeds once the manifests are there. *)
Theorem raised_call_is_retried
    (a : Accessor) (fs fs' : FileSystem) (self self' : DataModule)
    (st st' : Proc) (e : Exn) :
  self_id self' = self_id self ->
  call_accessor a fs self st = (Raised e, st') ->
  (call_accessor a fs' self' st').1 = (body_of a fs' (args self') st').1.
Proof.
  intros Hid Hcall.
  destruct (raised_was_miss _ _ _ _ _ _ Hcall) as (Hmiss & _ & Hk).
  rewrite call_accessor_unfold, lru_cache_miss_run
    by (now rewrite Hid, Hk).
  now destruct (body_of a fs' (args self') st') as [[r|e'] st1].
Qed.

Lemma raised_call_is_retried_witness :
  (call_accessor TestCuts sample_fs
     {| self_id := 3; args := default_args |} fresh_proc).1
  = Returned
      (Some (LazyManifest 0
               ["data"; "fbank"; "gigaspeech_cuts_TEST_future.jsonl.gz"]
               (numbered_cuts 2))).
Proof.
  rewrite (raised_call_is_retried TestCuts no_files sample_fs
             {| self_id := 3; args := default_args |}
             {| self_id := 3; args := default_args |}
             fresh_proc fresh_proc
             (FileNotFoundError
                ["data"; "fbank"; "gigaspeech_cuts_TEST_future.jsonl.gz"])
             eq_refl).
  - vm_compute. reflexivity.
  - vm_compute. reflexivity.
Defined.

(** X13.  Each accessor has a table of its own: a call of one accessor
    leaves the tables of the other two exactly as they were. *)
Theorem other_tables_untouched
    (a a' : Accessor) (fs : FileSystem) (self : DataModule) (st : Proc) :
  a <> a' ->
  cache_of a' (call_accessor a fs self st).2 = cache_of a' st.
Proof.
  intros Hne. rewrite call_accessor_unfold. unfold lru_cache.
  destruct (lru_lookup (self_id self) (cache_of a st)); cbn.
  - now rewrite cache_of_set_cache_ne.
  - pose proof (keeps_caches_body a fs (args self) st a') as Hk.
    destruct (body_of a fs (args self) st) as [[r|e] st1]; cbn in *.
    + now rewrite cache_of_set_cache_ne.
    + exact Hk.
Qed.

Lemma other_tables_untouched_witness :
  cache_of DevCuts
    (call_accessor TrainCuts sample_fs
       {| self_id := 1; args := default_args |} fresh_proc).2
  = cache_of DevCuts fresh_proc.
Proof.
  apply other_tables_untouched. discriminate.
Defined.

(** ** The tables stay in good order *)

Lemma lru_lookup_Some key result (cache : LruCache) :
  lru_lookup key cache = Some result -> (key, result) ∈ cache.
Proof.
  induction cache as [|[k r] cache IH]; cbn; [discriminate|].
  case_decide as Hk; subst.
  - intros Heq; inversion Heq; subst. apply list_elem_of_here.
  - intros Heq. apply list_elem_of_further. auto.
Qed.

Lemma wf_cache_touch key result (cache : LruCache) :
  lru_lookup key cache = Some result ->
  wf_cache cache -> wf_cache (lru_touch key result cache).
Proof.
  intros Hhit [Hnd Hlen]. unfold lru_touch, lru_remove. split; cbn.
  - constructor.
    + rewrite list_elem_of_fmap. intros ([k' r'] & Hk & Hin).
      apply list_elem_of_filter in Hin as [Hk' _]. cbn in *. congruence.
    + eapply sublist_NoDup; [exact Hnd|].
      apply fmap_sublist, sublist_filter.
  - apply lru_lookup_Some in Hhit.
    pose proof (length_filter_lt (fun e : nat * option CutSet => e.1 <> key)
                  cache (key, result) Hhit) as Hlt.
    cbn in Hlt. specialize (Hlt (fun H => H eq_refl)). lia.
Qed.

Lemma wf_cache_store key result (cache : LruCache) :
  lru_lookup key cache = None ->
  wf_cache cache -> wf_cache (lru_store key result cache).
Proof.
  intros Hmiss [Hnd Hlen]. unfold lru_store. rewrite Hmiss.
  case_decide as Hfull; split; cbn.
  - constructor.
    + apply lru_lookup_None. now apply lru_lookup_removelast.
    + eapply sublist_NoDup; [exact Hnd|].
      rewrite removelast_firstn_len. apply fmap_sublist, sublist_take.
  - rewrite removelast_firstn_len, length_take. unfold maxsize in *. lia.
  - constructor; [now apply lru_lookup_None | exact Hnd].
  - lia.
Qed.

Lemma wf_proc_set_cache a c st :
  wf_cache c -> wf_proc st -> wf_proc (set_cache a c st).
Proof.
  intros Hc Hst a'. destruct (decide (a = a')) as [<-|Hne].
  - now rewrite cache_of_set_cache.
  - rewrite cache_of_set_cache_ne by done. apply Hst.
Qed.

Lemma wf_proc_call a fs self st :
  wf_proc st -> wf_proc (call_accessor a fs self st).2.
Proof.
  intros Hst. rewrite call_accessor_unfold. unfold lru_cache.
  destruct (lru_lookup (self_id self) (cache_of a st)) as [r|] eqn:Hl; cbn.
  - apply wf_proc_set_cache; [|exact Hst]. now apply wf_cache_touch.
  - pose proof (keeps_caches_body a fs (args self) st) as Hk.
    destruct (body_of a fs (args self) st) as [[r|e] st1]; cbn in *.
    + assert (Hst1 : wf_proc st1) by (intros a'; rewrite Hk; apply Hst).
      apply wf_proc_set_cache; [|exact Hst1].
      apply wf_cache_store; [now rewrite Hk | apply Hst1].
    + intros a'. rewrite Hk. apply Hst.
Qed.

(** X14.  Whatever is called, on whatever instances and with whatever
    outcome, each of the three tables keeps at most 128 entries and holds no
    instance twice, provided it was so before; it is so in a fresh
    process. *)
Theorem tables_stay_in_order (calls : list Call) (st : Proc) :
  wf_proc st -> wf_proc (run_calls calls st).2.
Proof.
  revert st. induction calls as [|c calls IH]; intros st Hst.
  - exact Hst.
  - rewrite run_calls_cons. cbn [snd]. apply IH. now apply wf_proc_call.
Qed.

Lemma tables_stay_in_order_witness :
  wf_proc
    (run_calls (test_call 0 :: (test_call <$> seq 1 128) ++ [test_call 0])
       fresh_proc).2.
Proof.
  apply tables_stay_in_order.
  intros []; (split; [constructor | cbn; unfold maxsize; lia]).
Defined.

Lemma memoized_among_other_instances_witness :
  (run_calls [test_call 0; test_call 1; test_call 2; test_call 1; test_call 0]
     fresh_proc).1 !! 4%nat
  = Some (Returned
            (Some (LazyManifest 0
                     ["data"; "fbank"; "gigaspeech_cuts_TEST_future.jsonl.gz"]
                     (numbered_cuts 2)))).
Proof.
  eapply (memoized_among_other_instances 0 TestCuts [1; 2]%nat _ fresh_proc
            0 4).
  - cbn. unfold maxsize. lia.
  - repeat (apply List.Forall_cons;
              [cbn; intros _ Hne;
               first [ exfalso; apply Hne; reflexivity
                     | apply list_elem_of_here
                     | apply list_elem_of_further, list_elem_of_here ] |]).
    apply List.Forall_nil.
  - lia.
  - reflexivity.
  - reflexivity.
  - reflexivity.
  - reflexivity.
  - reflexivity.
  - reflexivity.
  - vm_compute. reflexivity.
Defined.
